(** * vector: provider task runner and Discuz automation engine

    A shallow embedding of [vector/core/db.py], [vector/core/base.py],
    [vector/core/discuz.py], [vector/providers/afraid.py] and the entry
    point [cli.py], followed by the properties established about them.

    Conventions of the embedding.
    - A coroutine is a computation in a state-and-exception monad: it maps
      the state before the call to an [outcome] and the state after it.
      Side effects done before an exception is raised stay in the state.
    - [exn] stands for instances of Python's [Exception] class, the class
      caught by [except Exception] and tested by [isinstance(_, Exception)].
    - Everything that lives outside the repository (the aiohttp session, the
      Motor client, the BeautifulSoup parser, [random]) is a field of the
      record [world]; the properties are quantified over every world.
    - Python [str] values are Rocq strings holding the UTF-8 encoding.
      Substring search on valid UTF-8 agrees with substring search on code
      points. *)

From Stdlib Require Import ZArith String Ascii List Lia Bool.
From stdpp Require Import base option list strings gmap.

Open Scope string_scope.
Open Scope Z_scope.

(** ** Python values and built-ins *)

Module py.

(** Instances of [Exception].  [AuthenticationError] is declared in
    [discuz.py]; the others are built-ins or come from the libraries. *)
Inductive exn : Type :=
| AuthenticationError (msg : string)
| ValueError (msg : string)
| TypeError (msg : string)
| AttributeError (msg : string)
| IndexError (msg : string)
| ImportError (msg : string)
| ClientError (msg : string)
| PyMongoError (msg : string).

(** Result of running a call: a value or a raised exception. *)
Inductive outcome (A : Type) : Type :=
| Ret (a : A)
| Raise (e : exn).
Arguments Ret {A} a.
Arguments Raise {A} e.

(** Scalar values stored in dictionaries handed to the HTTP client and in
    the [data] document of a configuration record. *)
Inductive pyval : Type :=
| VNone
| VBool (b : bool)
| VInt (z : Z)
| VStr (s : string).

(** Truth value testing, as done by [if x], [not x] and [x or y]. *)
Definition truthy (v : pyval) : bool :=
  match v with
  | VNone => false
  | VBool b => b
  | VInt z => negb (z =? 0)
  | VStr s => negb (String.eqb s "")
  end.

Definition str_truthy (s : string) : bool := negb (String.eqb s "").

Definition opt_truthy {A} (t : A -> bool) (o : option A) : bool :=
  match o with Some a => t a | None => false end.

Definition dict_truthy {A} (d : gmap string A) : bool :=
  negb (Nat.eqb (size d) 0).

(** [x or d] on an optional integer argument. *)
Definition int_or (x : option Z) (d : Z) : Z :=
  match x with
  | Some z => if z =? 0 then d else z
  | None => d
  end.

(** [needle in hay] on strings. *)
Fixpoint str_in (needle hay : string) : bool :=
  String.prefix needle hay
  || match hay with
     | EmptyString => false
     | String _ rest => str_in needle rest
     end.

(** [s.lstrip(c)], [s.rstrip(c)] and [s.strip(c)] for a single character. *)
Fixpoint lstrip (c : ascii) (s : string) : string :=
  match s with
  | String a rest => if Ascii.eqb a c then lstrip c rest else s
  | EmptyString => EmptyString
  end.

Fixpoint rstrip (c : ascii) (s : string) : string :=
  match s with
  | String a rest =>
      match rstrip c rest with
      | EmptyString => if Ascii.eqb a c then EmptyString else String a EmptyString
      | r => String a r
      end
  | EmptyString => EmptyString
  end.

Definition strip (c : ascii) (s : string) : string := rstrip c (lstrip c s).

(** [s.lower()].  Only the letters A-Z are mapped; bytes of multi-byte
    characters are kept.  No character outside ASCII lowers to a string
    over the letters of [user-agent], the only lowered string the code
    compares with. *)
Definition lower_ascii (a : ascii) : ascii :=
  let n := nat_of_ascii a in
  if (Nat.leb 65 n && Nat.leb n 90)%bool then ascii_of_nat (n + 32) else a.

Fixpoint lower (s : string) : string :=
  match s with
  | String a rest => String (lower_ascii a) (lower rest)
  | EmptyString => EmptyString
  end.

(** [str(n)] for a non negative count. *)
Definition digit (n : nat) : ascii := ascii_of_nat (48 + n).

Fixpoint str_of_nat_fuel (fuel n : nat) (acc : string) : string :=
  match fuel with
  | O => acc
  | S f =>
      let acc' := String (digit (n mod 10)) acc in
      match (n / 10)%nat with
      | O => acc'
      | q => str_of_nat_fuel f q acc'
      end
  end.

Definition str_of_nat (n : nat) : string := str_of_nat_fuel (S n) n "".

(** [str(z)] for an integer. *)
Definition str_of_Z (z : Z) : string :=
  if z <? 0 then String "-" (str_of_nat (Z.to_nat (- z)))
  else str_of_nat (Z.to_nat z).

(** [str(v)], as used by f-strings. *)
Definition str (v : pyval) : string :=
  match v with
  | VNone => "None"
  | VBool true => "True"
  | VBool false => "False"
  | VInt z => str_of_Z z
  | VStr s => s
  end.

(** [range(n)] as the list of its indices; empty when [n <= 0]. *)
Definition range (n : Z) : list nat := seq 0 (Z.to_nat n).

End py.
Export py.

(** ** The state-and-exception monad of coroutines *)

Definition M (S A : Type) : Type := S -> outcome A * S.

Definition ret {S A} (a : A) : M S A := fun s => (Ret a, s).

Definition raise {S A} (e : exn) : M S A := fun s => (Raise e, s).

Definition bind {S A B} (m : M S A) (k : A -> M S B) : M S B :=
  fun s =>
    match m s with
    | (Ret a, s') => k a s'
    | (Raise e, s') => (Raise e, s')
    end.

Definition get {S} : M S S := fun s => (Ret s, s).

Definition modify {S} (f : S -> S) : M S unit := fun s => (Ret tt, f s).

(** Awaiting an external call whose result the world fixes. *)
Definition await {S A} (o : outcome A) : M S A := fun s => (o, s).

(** [try: m except Exception as e: h e]. *)
Definition try_except {S A} (m : M S A) (h : exn -> M S A) : M S A :=
  fun s =>
    match m s with
    | (Ret a, s') => (Ret a, s')
    | (Raise e, s') => h e s'
    end.

(** [try: m finally: f].  An exception raised by [f] replaces the pending
    outcome of [m]. *)
Definition try_finally {S A} (m : M S A) (f : M S unit) : M S A :=
  fun s =>
    match m s with
    | (o, s') =>
        match f s' with
        | (Ret _, s'') => (o, s'')
        | (Raise e, s'') => (Raise e, s'')
        end
    end.

Declare Scope monad_scope.
Delimit Scope monad_scope with monad.
Notation "x <- m ;; k" := (bind m (fun x => k))
  (at level 100, m at next level, right associativity) : monad_scope.
Notation "m ;;; k" := (bind m (fun _ => k))
  (at level 100, right associativity) : monad_scope.
Open Scope monad_scope.

(** [asyncio.gather] with [return_exceptions=True]: every coroutine runs;
    the outcome of each one is collected in dispatch order and none is
    propagated.  The coroutines are run one after the other in dispatch
    order; the properties below are quantified over every world, hence over
    every assignment of outcomes to the coroutines. *)
Fixpoint gather_return_exceptions {S A} (tasks : list (M S A)) : M S (list (outcome A)) :=
  match tasks with
  | [] => ret []
  | t :: rest =>
      fun s =>
        match t s with
        | (o, s') =>
            match gather_return_exceptions rest s' with
            | (Ret os, s'') => (Ret (o :: os), s'')
            | (Raise e, s'') => (Raise e, s'')
            end
        end
  end.

(** The first exception among collected outcomes, if any. *)
Fixpoint first_raise {A} (os : list (outcome A)) : option exn :=
  match os with
  | [] => None
  | Raise e :: _ => Some e
  | Ret _ :: rest => first_raise rest
  end.

Fixpoint values {A} (os : list (outcome A)) : list A :=
  match os with
  | [] => []
  | Ret a :: rest => a :: values rest
  | Raise _ :: rest => values rest
  end.

(** [asyncio.gather] without [return_exceptions]: every coroutine is dispatched; an exception
    of one of them is raised to the awaiting caller and the siblings are
    not cancelled. *)
Definition gather {S A} (tasks : list (M S A)) : M S (list A) :=
  os <- gather_return_exceptions tasks ;;
  match first_raise os with
  | Some e => raise e
  | None => ret (values os)
  end.

(** ** External collaborators *)

(** [aiohttp.ClientTimeout]. *)
Record ClientTimeout : Type := { total : option Z }.

(** The [timeout] keyword as a caller may pass it: a number, a ready
    [ClientTimeout] object, or [None]. *)
Inductive timeout_arg : Type :=
| TimeoutNumber (n : Z)
| TimeoutObject (t : ClientTimeout)
| TimeoutNone.

(** Keyword arguments of [fetch]: [headers] and [timeout] are popped by
    [fetch]; every other keyword ([ssl], [json], ...) is in [kw_rest] and
    is forwarded to [ClientSession.request]. *)
Record fetch_kwargs : Type := {
  kw_headers : option (gmap string string);
  kw_timeout : option timeout_arg;
  kw_rest : gmap string pyval
}.

Definition no_kwargs : fetch_kwargs :=
  {| kw_headers := None; kw_timeout := None; kw_rest := ∅ |}.

(** One call of [ClientSession.request(method, url, data=, headers=,
    timeout=, **kwargs)]. *)
Record http_request : Type := {
  req_method : string;
  req_url : string;
  req_data : option (gmap string pyval);
  req_headers : gmap string string;
  req_timeout : option ClientTimeout;
  req_kwargs : gmap string pyval
}.

(** [aiohttp.ClientResponse]: awaiting [text()] gives the body or raises. *)
Record ClientResponse : Type := { text : outcome string }.

(** A parsed markup node of BeautifulSoup (the soup itself is one):
    [tag.get(attr)] reads [attrs], [tag.select(css)] is [select],
    [tag.get_text()] is [get_text]. *)
#[local] Unset Elimination Schemes.
Inductive Tag : Type :=
  mkTag (attrs : gmap string string) (get_text : string) (select : string -> list Tag).
#[local] Set Elimination Schemes.

Definition attrs (t : Tag) : gmap string string :=
  match t with mkTag a _ _ => a end.

Definition get_text (t : Tag) : string :=
  match t with mkTag _ x _ => x end.

Definition select (t : Tag) (css : string) : list Tag :=
  match t with mkTag _ _ f => f css end.

(** [tag.select_one(css)]: the first match, or [None]. *)
Definition select_one (t : Tag) (css : string) : option Tag :=
  head (select t css).

(** A stored configuration document, as [get_provider] reads it. *)
Record document : Type := {
  doc_name : string;
  doc_data : gmap string pyval
}.

(** What the environment answers.  [session_request] receives the requests
    already sent, so that answers may change over time; [random_draw k] is
    the raw value of the [k]-th draw of the [random] module. *)
Record world : Type := {
  session_request : list http_request -> http_request -> outcome ClientResponse;
  session_close : outcome unit;
  BeautifulSoup : string -> Tag;
  random_draw : nat -> nat;
  create_index : outcome unit;
  find_sorted : gmap string pyval -> outcome (list document);
  motor_close : outcome unit
}.

(** ** vector/core/db.py *)

Module db.

Definition STATUS_DISABLED : Z := 0.
Definition STATUS_ENABLED : Z := 1.
Definition COLLECTION_NAME : string := "providers".

(** Handles of the Motor driver. *)
Record AsyncIOMotorClient : Type := { client_url : string }.
Record AsyncIOMotorCollection : Type := {
  coll_client : AsyncIOMotorClient;
  coll_db : string;
  coll_name : string
}.

Record MongoDB : Type := {
  db_url : string;
  _client : option AsyncIOMotorClient;
  collection : option AsyncIOMotorCollection
}.

(** [MongoDB.__init__], reading [os.environ]. *)
Definition __init__ (environ : gmap string string) : outcome MongoDB :=
  let url := default "" (environ !! "MONGO_URL") in
  if negb (str_truthy url)
  then Raise (ValueError "Environment variable MONGO_URL is not set")
  else Ret {| db_url := url; _client := None; collection := None |}.

(** Calls made to the Motor driver, in order. *)
Inductive driver_call : Type :=
| Create_index
| Find_sorted (query : gmap string pyval)
| Client_close.

Record store : Type := {
  handle : MongoDB;
  driver_calls : list driver_call
}.

Definition called (c : driver_call) : M store unit :=
  modify (fun s => {| handle := handle s; driver_calls := driver_calls s ++ [c] |}).

Definition set_handle (h : MongoDB) : M store unit :=
  modify (fun s => {| handle := h; driver_calls := driver_calls s |}).

Definition connect (w : world) : M store unit :=
  s <- get ;;
  let d := handle s in
  match collection d with
  | Some _ => ret tt
  | None =>
      let c := match _client d with
               | Some c => c
               | None => {| client_url := db_url d |}
               end in
      set_handle {| db_url := db_url d;
                    _client := Some c;
                    collection := Some {| coll_client := c;
                                          coll_db := "db0";
                                          coll_name := COLLECTION_NAME |} |} ;;;
      called Create_index ;;;
      await (create_index w)
  end.

Definition close (w : world) : M store unit :=
  s <- get ;;
  let d := handle s in
  match _client d with
  | Some _ =>
      called Client_close ;;;
      await (motor_close w) ;;;
      set_handle {| db_url := db_url d; _client := None; collection := None |}
  | None => ret tt
  end.

Definition get_provider (w : world) (provider_type : pyval) (name : pyval)
  : M store (list (string * gmap string pyval)) :=
  let query : gmap string pyval :=
    <["status" := VInt STATUS_ENABLED]> (<["provider_type" := provider_type]> ∅) in
  let query := if truthy name then <["name" := name]> query else query in
  s <- get ;;
  match collection (handle s) with
  | None => raise (AttributeError "'NoneType' object has no attribute 'find'")
  | Some _ =>
      called (Find_sorted query) ;;;
      docs <- await (find_sorted w query) ;;
      ret (map (fun doc => (doc_name doc, doc_data doc)) docs)
  end.

End db.

(** ** vector/core/base.py *)

Module base.

Record HandlerResult : Type := {
  success : bool;
  message : string;
  data : option pyval;
  error : option string
}.

(** [HandlerResult.ok] and [HandlerResult.fail]. *)
Definition ok (message : string) (data : option pyval) : HandlerResult :=
  {| success := true; message := message; data := data; error := None |}.

Definition fail (message : string) (error : option string) : HandlerResult :=
  {| success := false; message := message; data := None; error := error |}.

(** [HandlerResult.__bool__]. *)
Definition __bool__ (r : HandlerResult) : bool := success r.

(** An [aiohttp.ClientSession], numbered in order of creation. *)
Record ClientSession : Type := { session_no : nat }.

(** A provider instance together with what it did to the outside:
    the requests sent through its sessions, the sessions on which
    [close()] was awaited, the lines given to [logger.debug] and
    [logger.info], the number of random draws. *)
Record provider : Type := {
  _session : option ClientSession;
  base_url : string;
  opened : nat;
  closed : list ClientSession;
  sent : list http_request;
  lines : list string;
  draws : nat
}.

Definition set_session (o : option ClientSession) (p : provider) : provider :=
  {| _session := o; base_url := base_url p; opened := opened p;
     closed := closed p; sent := sent p; lines := lines p; draws := draws p |}.

Definition set_base_url (u : string) (p : provider) : provider :=
  {| _session := _session p; base_url := u; opened := opened p;
     closed := closed p; sent := sent p; lines := lines p; draws := draws p |}.

Definition add_opened (p : provider) : provider :=
  {| _session := _session p; base_url := base_url p; opened := S (opened p);
     closed := closed p; sent := sent p; lines := lines p; draws := draws p |}.

Definition add_closed (c : ClientSession) (p : provider) : provider :=
  {| _session := _session p; base_url := base_url p; opened := opened p;
     closed := closed p ++ [c]; sent := sent p; lines := lines p; draws := draws p |}.

Definition add_sent (r : http_request) (p : provider) : provider :=
  {| _session := _session p; base_url := base_url p; opened := opened p;
     closed := closed p; sent := sent p ++ [r]; lines := lines p; draws := draws p |}.

Definition add_line (l : string) (p : provider) : provider :=
  {| _session := _session p; base_url := base_url p; opened := opened p;
     closed := closed p; sent := sent p; lines := lines p ++ [l]; draws := draws p |}.

Definition add_draw (p : provider) : provider :=
  {| _session := _session p; base_url := base_url p; opened := opened p;
     closed := closed p; sent := sent p; lines := lines p; draws := S (draws p) |}.

(** A provider with no session, as [BaseProvider.__init__] leaves it;
    [base_url] is assigned by a handler before it is read. *)
Definition __init__ : provider :=
  {| _session := None; base_url := ""; opened := 0; closed := [];
     sent := []; lines := []; draws := 0 |}.

(** The [session] property: get or create the HTTP client session. *)
Definition session : M provider ClientSession :=
  p <- get ;;
  match _session p with
  | Some c => ret c
  | None =>
      let c := {| session_no := opened p |} in
      modify add_opened ;;;
      modify (set_session (Some c)) ;;;
      ret c
  end.

Definition close_session (w : world) : M provider unit :=
  p <- get ;;
  match _session p with
  | Some c =>
      modify (add_closed c) ;;;
      await (session_close w) ;;;
      modify (set_session None)
  | None => ret tt
  end.

Definition USER_AGENT : string :=
  "Mozilla/5.0 (Windows NT 10.0; Win64; x64) " +:+
  "AppleWebKit/537.36 (KHTML, like Gecko) " +:+
  "Chrome/136.0.0.0 Safari/537.36 Edg/136.0.0.0".

(** ["user-agent" in {k.lower() for k in headers.keys()}]. *)
Definition has_user_agent (headers : gmap string string) : bool :=
  bool_decide ("user-agent" ∈ (set_map lower (dom headers) : gset string)).

(** [ClientSession.request], recorded in [sent]. *)
Definition session_request_on (w : world) (c : ClientSession) (r : http_request)
  : M provider ClientResponse :=
  p <- get ;;
  modify (add_sent r) ;;;
  await (session_request w (sent p) r).

Definition fetch (w : world) (url : string) (data : option (gmap string pyval))
    (method : string) (kwargs : fetch_kwargs) : M provider ClientResponse :=
  (* Set default headers *)
  let headers := default ∅ (kw_headers kwargs) in
  let headers :=
    if has_user_agent headers then headers
    else <["User-Agent" := USER_AGENT]> headers in
  (* Set timeout *)
  let timeout :=
    match default (TimeoutNumber 30) (kw_timeout kwargs) with
    | TimeoutNumber n => Some {| total := Some n |}
    | TimeoutObject t => Some t
    | TimeoutNone => None
    end in
  (* Set SSL verification *)
  let rest :=
    match kw_rest kwargs !! "ssl" with
    | Some _ => kw_rest kwargs
    | None => <["ssl" := VBool false]> (kw_rest kwargs)
    end in
  (* Auto-detect POST method *)
  let method :=
    if opt_truthy dict_truthy data || opt_truthy truthy (rest !! "json")
    then "POST" else method in
  modify (add_line (method +:+ " " +:+ url)) ;;;
  c <- session ;;
  session_request_on w c
    {| req_method := method; req_url := url; req_data := data;
       req_headers := headers; req_timeout := timeout; req_kwargs := rest |}.

(** The provider contract: the class name and the abstract [handler]. *)
Class Provider : Type := {
  class_name : string;
  handler : world -> gmap string pyval -> string -> gmap string pyval
            -> M provider HandlerResult
}.

(** Records given to the loggers by [run] and by [cli.py]. *)
Inductive log_record : Type :=
| Info_starting (provider : string)
| Info_completed (provider : string)
| Error_failed (e : exn)
| Warning_no_providers (provider_type : pyval)
| Info_processing (provider_name : string)
| Info_success (provider_name message : string)
| Error_failure (provider_name message : string)
| Error_details (error : string)
| Error_handler_exception (provider_name : string) (e : exn)
| Error_in_run (e : exn).

(** The process state [run] works on: the provider instance, the global
    [db] of [vector.core.db], and the log. *)
Record state : Type := {
  self : provider;
  db : db.store;
  log : list log_record
}.

Definition on_self {A} (m : M provider A) : M state A :=
  fun s =>
    match m (self s) with
    | (o, p) => (o, {| self := p; db := db s; log := log s |})
    end.

Definition on_db {A} (m : M db.store A) : M state A :=
  fun s =>
    match m (db s) with
    | (o, d) => (o, {| self := self s; db := d; log := log s |})
    end.

Definition logger (r : log_record) : M state unit :=
  modify (fun s => {| self := self s; db := db s; log := log s ++ [r] |}).

Definition connect (w : world) : M state unit := on_db (db.connect w).

Definition close (w : world) : M state unit :=
  on_db (db.close w) ;;;
  on_self (close_session w).

Definition get_provider `{Provider} (w : world) (provider_type name : pyval)
  : M state (list (string * gmap string pyval)) :=
  let provider_type :=
    if truthy provider_type then provider_type else VStr class_name in
  on_db (db.get_provider w provider_type name).

(** [for x in xs: body x]. *)
Fixpoint for_each {S A} (xs : list A) (body : A -> M S unit) : M S unit :=
  match xs with
  | [] => ret tt
  | x :: rest => body x ;;; for_each rest body
  end.

(** The body of the loop of [run] for one record. *)
Definition process `{Provider} (w : world) (kwargs : gmap string pyval)
    (record : string * gmap string pyval) : M state unit :=
  let '(provider_name, provider_data) := record in
  logger (Info_processing provider_name) ;;;
  try_except
    (result <- on_self (handler w provider_data provider_name kwargs) ;;
     if success result
     then logger (Info_success provider_name (message result))
     else
       logger (Error_failure provider_name (message result)) ;;;
       match error result with
       | Some e => if str_truthy e then logger (Error_details e) else ret tt
       | None => ret tt
       end)
    (fun e => logger (Error_handler_exception provider_name e)).

(** The [try] block of [run]. *)
Definition run_try `{Provider} (w : world) (kwargs : gmap string pyval)
  : M state unit :=
  connect w ;;;
  let name := default VNone (kwargs !! "name") in
  let provider_type := default (VStr class_name) (kwargs !! "provider_type") in
  providers <- get_provider w provider_type name ;;
  match providers with
  | [] => logger (Warning_no_providers provider_type)
  | _ => for_each providers (process w kwargs)
  end.

Definition run `{Provider} (w : world) (kwargs : gmap string pyval) : M state unit :=
  try_finally
    (try_except (run_try w kwargs) (fun e => logger (Error_in_run e)))
    (close w).

End base.

(** ** vector/core/discuz.py *)

Module discuz.
Import base.

Definition VIEW_COUNT : Z := 11.
Definition MIN_USER_COUNT : Z := 2.
Definition POKE_DEFAULT_NUM : Z := 10.
Definition POKE_DEFAULT_ICONID : Z := 3.

(** Default values of the keyword parameters of [sign] and [poke]. *)
Definition sign_text_default : string := "您今天已經簽到過了".
Definition form_name_default : string := "#qiandao".
Definition success_text_default : string := "已發送".

(** [UID_PATTERN = re.compile(r"uid[=-]([0-9]+)")]: group 1 of a match
    starting at the head of [s]. *)
Definition is_digit (a : ascii) : bool :=
  let n := nat_of_ascii a in (Nat.leb 48 n && Nat.leb n 57)%bool.

Fixpoint digits (s : string) : string :=
  match s with
  | String a rest => if is_digit a then String a (digits rest) else EmptyString
  | EmptyString => EmptyString
  end.

Definition uid_match_at (s : string) : option string :=
  match s with
  | String "u" (String "i" (String "d" (String c rest))) =>
      if (Ascii.eqb c "=" || Ascii.eqb c "-")%bool
      then match digits rest with
           | EmptyString => None
           | d => Some d
           end
      else None
  | _ => None
  end.

(** [UID_PATTERN.search(s)] followed by [.group(1)]: leftmost match. *)
Fixpoint UID_PATTERN_search (s : string) : option string :=
  match uid_match_at s with
  | Some d => Some d
  | None =>
      match s with
      | String _ rest => UID_PATTERN_search rest
      | EmptyString => None
      end
  end.

(** [random.choice(xs)]. *)
Definition choice {A} (w : world) (xs : list A) : M provider A :=
  p <- get ;;
  modify add_draw ;;;
  match xs !! (random_draw w (draws p) mod length xs)%nat with
  | Some x => ret x
  | None => raise (IndexError "Cannot choose from an empty sequence")
  end.

(** [[f(x) for x in xs]] with an effectful [f]. *)
Fixpoint comprehension {S A B} (xs : list A) (f : A -> M S B) : M S (list B) :=
  match xs with
  | [] => ret []
  | x :: rest =>
      y <- f x ;;
      ys <- comprehension rest f ;;
      ret (y :: ys)
  end.

Definition request (w : world) (url : string) (data : option (gmap string pyval))
    (method : string) (kwargs : fetch_kwargs) : M provider string :=
  response <- fetch w url data method kwargs ;;
  body <- await (text response) ;;
  if negb (str_in "action=logout" body)
  then raise (AuthenticationError "登录状态已失效，请重新登录")
  else ret body.

(** One step of the loop of [_extract_form_params]. *)
Definition add_input (params : gmap string string) (_input : Tag)
  : gmap string string :=
  let name := attrs _input !! "name" in
  let value := default "" (attrs _input !! "value") in
  match name with
  | Some name =>
      if str_truthy name
      then <[name := if str_truthy value then value else ""]> params
      else params
  | None => params
  end.

(** The coroutine awaits nothing, so it is a function of its arguments. *)
Definition _extract_form_params (soup : Tag) (form_selector : string)
  : gmap string string :=
  match select_one soup form_selector with
  | Some form => fold_left add_input (select form "input") ∅
  | None => ∅
  end.

Definition sign (w : world) (sign_text form_name : string) (kwargs : fetch_kwargs)
  : M provider string :=
  p <- get ;;
  let sign_url := base_url p +:+ "/plugin.php?id=dsu_paulsign:sign" in
  result <- request w sign_url None "GET" kwargs ;;
  if str_in sign_text result then ret sign_text
  else
    let soup := BeautifulSoup w result in
    let params := VStr <$> _extract_form_params soup form_name in
    let params := <["todaysay" := VStr "hello"]> params in
    let action_attr :=
      match select_one soup form_name with
      | Some form => default "" (attrs form !! "action")
      | None => ""
      end in
    let action := base_url p +:+ "/" +:+ strip "/" action_attr +:+ "&inajax=1" in
    response <- fetch w action (Some params) "GET" kwargs ;;
    await (text response).

(** The UID of one listed element, when it has a profile link. *)
Definition element_uid (element : Tag) : option string :=
  match select_one element "div.avt a" with
  | None => None
  | Some link_tag =>
      let link := default "" (attrs link_tag !! "href") in
      if str_truthy link then UID_PATTERN_search link else None
  end.

Definition get_users (w : world) (kwargs : fetch_kwargs) : M provider (list string) :=
  p <- get ;;
  let user_url :=
    base_url p +:+ "/home.php?gender=0&startage=&endage=" +:+
    "&avatarstatus=1&username=&searchsubmit=true&op=sex" +:+
    "&mod=spacecp&ac=search&type=base" in
  html <- request w user_url None "GET" kwargs ;;
  let soup := BeautifulSoup w html in
  let elements := select soup "ul.buddy li.bbda" in
  ret (omap element_uid elements).

Definition views (w : world) (kwargs : fetch_kwargs) : M provider string :=
  uid_list <- get_users w kwargs ;;
  if Z.of_nat (length uid_list) <=? MIN_USER_COUNT then ret "No users found"
  else
    p <- get ;;
    selected_uids <- comprehension (range VIEW_COUNT) (fun _ => choice w uid_list) ;;
    let tasks :=
      map (fun uid =>
             fetch w (base_url p +:+ "/space-uid-" +:+ uid +:+ ".html") None "GET" kwargs)
          selected_uids in
    gather tasks ;;;
    ret ("Viewed " +:+ str_of_nat (length selected_uids) +:+ " user profiles").

Definition _send_poke (w : world) (uid : string) (iconid : Z) (success_text : string)
    (kwargs : fetch_kwargs) : M provider bool :=
  p <- get ;;
  let poke_url := base_url p +:+ "/home.php?mod=spacecp&ac=poke&op=send&uid=" +:+ uid in
  page <- request w poke_url None "GET" kwargs ;;
  let soup := BeautifulSoup w page in
  let params := VStr <$> _extract_form_params soup "#ct form" in
  let params := <["iconid" := VInt iconid]> params in
  let params := <["note" := VStr "hello"]> params in
  let action := poke_url +:+ "&inajax=1" in
  response <- fetch w action (Some params) "GET" kwargs ;;
  response_text <- await (text response) ;;
  ret (str_in success_text response_text).

(** The confirmation line of one UID. *)
Definition confirmation (uid : string) : string :=
  "用户 " +:+ uid +:+ " 的打招呼消息已发送。".

(** [not isinstance(poke_result, Exception) and poke_result]. *)
Definition succeeded (poke_result : outcome bool) : bool :=
  match poke_result with
  | Ret b => b
  | Raise _ => false
  end.

(** The collecting loop of [poke], from index [i] on. *)
Fixpoint collect (i : nat) (selected_uids : list string)
    (poke_results : list (outcome bool)) : outcome (list string) :=
  match poke_results with
  | [] => Ret []
  | poke_result :: rest =>
      match selected_uids !! i with
      | None => Raise (IndexError "list index out of range")
      | Some uid =>
          match collect (S i) selected_uids rest with
          | Raise e => Raise e
          | Ret result =>
              if succeeded poke_result
              then Ret (confirmation uid :: result)
              else Ret result
          end
      end
  end.

Definition poke (w : world) (success_text : string) (poke_num iconid : option Z)
    (kwargs : fetch_kwargs) : M provider (list string) :=
  let poke_num := int_or poke_num POKE_DEFAULT_NUM in
  let iconid := int_or iconid POKE_DEFAULT_ICONID in
  uid_list <- get_users w kwargs ;;
  if Z.of_nat (length uid_list) <=? MIN_USER_COUNT then ret []
  else
    selected_uids <- comprehension (range poke_num) (fun _ => choice w uid_list) ;;
    let tasks :=
      map (fun uid => _send_poke w uid iconid success_text kwargs) selected_uids in
    poke_results <- gather_return_exceptions tasks ;;
    await (collect 0 selected_uids poke_results).

(** *** [user_info] *)

Definition byte_in (lo hi : nat) (a : ascii) : bool :=
  (Nat.leb lo (nat_of_ascii a) && Nat.leb (nat_of_ascii a) hi)%bool.

Definition byte_is (n : nat) (a : ascii) : bool := Nat.eqb (nat_of_ascii a) n.

(** The characters of [str.isspace], which [str.strip()] and [str.split()]
    work with, in UTF-8: U+0009 to U+000D, U+001C to U+0020, U+0085,
    U+00A0, U+1680, U+2000 to U+200A, U+2028, U+2029, U+202F, U+205F and
    U+3000.  [space_at s] is the number of bytes of the whitespace
    character at the head of [s], and 0 when there is none. *)
Definition space_at (s : string) : nat :=
  match s with
  | String a r =>
      if (byte_in 9 13 a || byte_in 28 32 a)%bool then 1%nat
      else
        match r with
        | String b r2 =>
            if (byte_is 194 a && (byte_is 133 b || byte_is 160 b))%bool then 2%nat
            else
              match r2 with
              | String c _ =>
                  if (byte_is 225 a && byte_is 154 b && byte_is 128 c)%bool then 3%nat
                  else if (byte_is 226 a && byte_is 128 b
                           && (byte_in 128 138 c || byte_is 168 c
                               || byte_is 169 c || byte_is 175 c))%bool then 3%nat
                  else if (byte_is 226 a && byte_is 129 b && byte_is 159 c)%bool then 3%nat
                  else if (byte_is 227 a && byte_is 128 b && byte_is 128 c)%bool then 3%nat
                  else 0%nat
              | EmptyString => 0%nat
              end
        | EmptyString => 0%nat
        end
  | EmptyString => 0%nat
  end.

(** [s.lstrip()]. *)
Fixpoint lstrip_space (s : string) : string :=
  match s with
  | EmptyString => EmptyString
  | String _ r =>
      match space_at s with
      | 0%nat => s
      | 1%nat => lstrip_space r
      | 2%nat => match r with
                 | String _ r2 => lstrip_space r2
                 | EmptyString => EmptyString
                 end
      | _ => match r with
             | String _ (String _ r3) => lstrip_space r3
             | _ => EmptyString
             end
      end
  end.

(** Whether [s] is made of whitespace characters only. *)
Fixpoint only_space (s : string) : bool :=
  match s with
  | EmptyString => true
  | String _ r =>
      match space_at s with
      | 0%nat => false
      | 1%nat => only_space r
      | 2%nat => match r with
                 | String _ r2 => only_space r2
                 | EmptyString => false
                 end
      | _ => match r with
             | String _ (String _ r3) => only_space r3
             | _ => false
             end
      end
  end.

(** [s.rstrip()]. *)
Fixpoint rstrip_space (s : string) : string :=
  match s with
  | EmptyString => EmptyString
  | String a r => if only_space s then EmptyString else String a (rstrip_space r)
  end.

(** [s.strip()]. *)
Definition strip_space (s : string) : string := rstrip_space (lstrip_space s).

(** ["".join(s.split())]: [s] without its whitespace characters.  [skip]
    counts the bytes still to drop of the character being removed. *)
Fixpoint join_split_from (skip : nat) (s : string) : string :=
  match s with
  | EmptyString => EmptyString
  | String a r =>
      match skip with
      | S k => join_split_from k r
      | O =>
          match space_at s with
          | O => String a (join_split_from 0 r)
          | S k => join_split_from k r
          end
      end
  end.

Definition join_split (s : string) : string := join_split_from 0 s.

Definition LF : ascii := ascii_of_nat 10.
Definition CR : ascii := ascii_of_nat 13.

(** The promotional phrase of [HTML_CLEANUP_PATTERN]. *)
Definition PROMO : string := "(前往兌換商城)".

(** The number of characters before the first [>] of [s], if there is one. *)
Fixpoint until_gt (s : string) : option nat :=
  match s with
  | EmptyString => None
  | String a r => if Ascii.eqb a ">" then Some 0%nat else option_map S (until_gt r)
  end.

(** [\r?\n] at the head of [s]: the length of the match, 0 for none. *)
Definition newline_len (s : string) : nat :=
  match s with
  | String a r =>
      if Ascii.eqb a LF then 1%nat
      else if Ascii.eqb a CR
           then match r with
                | String b _ => if Ascii.eqb b LF then 2%nat else 0%nat
                | EmptyString => 0%nat
                end
           else 0%nat
  | EmptyString => 0%nat
  end.

(** [HTML_CLEANUP_PATTERN] at the head of [s]: the length in bytes of the
    match of the first alternative that matches, 0 when none does.  The
    alternatives are, in order: [&#13;], [<em>], [</em>], the promotional
    phrase in parentheses, [<[^>]+>] and [\r?\n]. *)
Definition HTML_CLEANUP_PATTERN_match (s : string) : nat :=
  if String.prefix "&#13;" s then 5%nat
  else if String.prefix "<em>" s then 4%nat
  else if String.prefix "</em>" s then 5%nat
  else if String.prefix PROMO s then String.length PROMO
  else
    match s with
    | String "<" r =>
        match until_gt r with
        | Some (S n) => S (S (S n))
        | _ => newline_len s
        end
    | _ => newline_len s
    end.

(** [HTML_CLEANUP_PATTERN.sub("", s)]: the matches are found from left to
    right, without overlap, and dropped.  [skip] counts the bytes still to
    drop of the match being removed. *)
Fixpoint HTML_CLEANUP_PATTERN_sub_from (skip : nat) (s : string) : string :=
  match s with
  | EmptyString => EmptyString
  | String a r =>
      match skip with
      | S k => HTML_CLEANUP_PATTERN_sub_from k r
      | O =>
          match HTML_CLEANUP_PATTERN_match s with
          | O => String a (HTML_CLEANUP_PATTERN_sub_from 0 r)
          | S k => HTML_CLEANUP_PATTERN_sub_from k r
          end
      end
  end.

Definition HTML_CLEANUP_PATTERN_sub (s : string) : string :=
  HTML_CLEANUP_PATTERN_sub_from 0 s.

Definition user_info (w : world) (kwargs : fetch_kwargs) : M provider string :=
  p <- get ;;
  let info_url := base_url p +:+ "/home.php?mod=spacecp&ac=credit&op=base" in
  result <- request w info_url None "GET" kwargs ;;
  let soup := BeautifulSoup w result in
  match select_one soup ".creditl" with
  | Some creditl =>
      let html := get_text creditl in
      let html := HTML_CLEANUP_PATTERN_sub html in
      let html := strip_space html in
      ret (join_split html)
  | None => ret ""
  end.

End discuz.

(** ** vector/providers/afraid.py *)

Module afraid.
Import base.

Definition BASE_URL : string := "https://freedns.afraid.org/zc.php?step=2".

Definition handler (w : world) (provider_data : gmap string pyval)
    (provider_name : string) (kwargs : gmap string pyval)
  : M provider HandlerResult :=
  let username := default VNone (provider_data !! "username") in
  let password := default VNone (provider_data !! "password") in
  if negb (truthy username) || negb (truthy password)
  then ret (fail "Missing credentials" (Some "username or password not provided"))
  else
    modify (add_line ("Checking login for user: " +:+ str username)) ;;;
    let params : gmap string pyval :=
      <["username" := username]>
        (<["password" := password]>
           (<["submit" := VStr "Login"]> (<["action" := VStr "auth"]> ∅))) in
    response <- fetch w BASE_URL (Some params) "GET" no_kwargs ;;
    html <- await (text response) ;;
    match username with
    | VStr u =>
        if str_in u html
        then ret (ok ("Login successful for " +:+ u) None)
        else ret (fail ("Login failed for " +:+ u)
                       (Some "Username not found in response page"))
    | _ => raise (TypeError "'in <string>' requires string as left operand")
    end.

#[export] Instance Afraid : Provider :=
  {| base.class_name := "Afraid"; base.handler := handler |}.

End afraid.

(** ** vector/providers/jkforum.py *)

Module jkforum.
Import base.

(** [str] of a list of strings that hold no quote, no backslash and no
    unprintable character, for which [repr] only adds the quotes; the
    lines of [poke] are confirmations of numeric UIDs. *)
Definition str_of_lines (lines : list string) : string :=
  "[" +:+ String.concat ", " (map (fun l => "'" +:+ l +:+ "'") lines) +:+ "]".

Definition info (line : string) : M provider unit := modify (add_line line).

(** The handler once [base_url] is assigned and the cookie is read. *)
Definition tasks (w : world) (cookie : string) : M provider HandlerResult :=
  let headers : gmap string string := <["Cookie" := cookie]> ∅ in
  let kwargs := {| kw_headers := Some headers; kw_timeout := None; kw_rest := ∅ |} in
  user_info <- discuz.user_info w kwargs ;;
  info ("User info: " +:+ user_info) ;;;
  result <- discuz.views w kwargs ;;
  info ("Views result: " +:+ result) ;;;
  result <- discuz.sign w discuz.sign_text_default discuz.form_name_default kwargs ;;
  info ("Sign result: " +:+ result) ;;;
  result <- discuz.poke w discuz.success_text_default None None kwargs ;;
  info ("Poke result: " +:+ str_of_lines result) ;;;
  ret (ok "Jkforum tasks completed" None).

(** [handler].  The cookie of the record becomes a header value as it is;
    what aiohttp does with a value that is not a string is not part of the
    repository, so the run of the handler on such a record is the
    parameter [other_cookie]. *)
Definition handler (other_cookie : pyval -> M provider HandlerResult) (w : world)
    (provider_data : gmap string pyval) (provider_name : string)
    (kwargs : gmap string pyval) : M provider HandlerResult :=
  modify (set_base_url (str (default VNone (provider_data !! "base_url")))) ;;;
  match default VNone (provider_data !! "cookie") with
  | VStr cookie => tasks w cookie
  | v => other_cookie v
  end.


End jkforum.

(** ** cli.py *)

Module cli.
Import base.

(** How the process ended: the exit status, and the state it reached once
    the modules were imported ([None] when the import itself failed, in
    which case [main] was never entered). *)
Record ended : Type := {
  exit_status : Z;
  reached : option state
}.

Definition run_provider (w : world)
    (create_provider_instance : string -> outcome Provider)
    (provider_name : string) (username : option string) : M state unit :=
  logger (Info_starting provider_name) ;;;
  instance <- await (create_provider_instance provider_name) ;;
  let kwargs : gmap string pyval :=
    <["name" := match username with Some u => VStr u | None => VNone end]>
      (<["provider_type" := VStr provider_name]> ∅) in
  @run instance w kwargs ;;;
  logger (Info_completed provider_name).

Definition main (w : world)
    (create_provider_instance : string -> outcome Provider)
    (provider : string) (username : option string) (s : state) : ended :=
  match run_provider w create_provider_instance provider username s with
  | (Ret _, s') => {| exit_status := 0; reached := Some s' |}
  | (Raise e, s') =>
      match logger (Error_failed e) s' with
      | (_, s'') => {| exit_status := 1; reached := Some s'' |}
      end
  end.

(** Running [cli.py]: its imports execute [db = MongoDB()] of
    [vector/core/db.py] with the process environment; an exception there
    is not caught by anything and ends the interpreter with status 1. *)
Definition script (environ : gmap string string) (w : world)
    (create_provider_instance : string -> outcome Provider)
    (provider : string) (username : option string) : ended :=
  match db.__init__ environ with
  | Raise _ => {| exit_status := 1; reached := None |}
  | Ret handle =>
      main w create_provider_instance provider username
        {| self := base.__init__;
           db := {| db.handle := handle; db.driver_calls := [] |};
           log := [] |}
  end.

End cli.

(** ** Vocabulary of the statements *)

(** What a call leaves untouched in the provider, and the requests it adds. *)
Definition sends (p p' : base.provider) (rs : list http_request) : Prop :=
  base.sent p' = (base.sent p ++ rs)%list
  /\ base.draws p' = base.draws p
  /\ base.base_url p' = base.base_url p.

(** Among [inputs], the last one named [k] exists, [k] is not empty, and
    its value, the empty string when the attribute is missing, is [v]. *)
Definition last_named (inputs : list Tag) (k v : string) : Prop :=
  exists i _input,
    inputs !! i = Some _input
    /\ attrs _input !! "name" = Some k
    /\ k <> ""
    /\ v = default "" (attrs _input !! "value")
    /\ forall j _input', (i < j)%nat -> inputs !! j = Some _input' ->
                         attrs _input' !! "name" <> Some k.

(** [R] relates the state before every run of [m] to the state after it. *)
Definition always {S A} (R : S -> S -> Prop) (m : M S A) : Prop :=
  forall s, R s (m s).2.

(** The provider keeps using its HTTP session: none is closed, a held one
    stays, and one is opened, with the next number, only when none is held. *)
Definition reuses (p p' : base.provider) : Prop :=
  base.closed p' = base.closed p
  /\ match base._session p with
     | Some c => base._session p' = Some c /\ base.opened p' = base.opened p
     | None =>
         (base._session p' = None /\ base.opened p' = base.opened p)
         \/ (base._session p' = Some {| base.session_no := base.opened p |}
             /\ base.opened p' = S (base.opened p))
     end.

(** The request holds what the caller passed as keyword arguments: every
    header of the caller, a user agent header, every other keyword, and a
    value for [ssl]. *)
Definition carries (kwargs : fetch_kwargs) (r : http_request) : Prop :=
  (forall k v, default ∅ (kw_headers kwargs) !! k = Some v -> req_headers r !! k = Some v)
  /\ (exists k, k ∈ dom (req_headers r) /\ lower k = "user-agent")
  /\ (forall k v, kw_rest kwargs !! k = Some v -> req_kwargs r !! k = Some v)
  /\ is_Some (req_kwargs r !! "ssl").

(** The requests sent are kept, and those added all satisfy [Q]. *)
Definition extended_by (Q : http_request -> Prop) (p p' : base.provider) : Prop :=
  exists rs, base.sent p' = (base.sent p ++ rs)%list /\ Forall Q rs.

(** A string of decimal digits. *)
Fixpoint numeric (s : string) : bool :=
  match s with
  | EmptyString => true
  | String a rest => (discuz.is_digit a && numeric rest)%bool
  end.

(** The ASCII characters of [str.isspace]. *)
Definition ascii_space (a : ascii) : bool :=
  (discuz.byte_in 9 13 a || discuz.byte_in 28 32 a)%bool.

(** Whether the character [a] occurs in [s]. *)
Fixpoint has_char (a : ascii) (s : string) : bool :=
  match s with
  | EmptyString => false
  | String b rest => (Ascii.eqb a b || has_char a rest)%bool
  end.

(** The site takes no request for one of a logged-in user: every answer
    arrives, and its body lacks the logout marker. *)
Definition logged_out_site (w : world) : Prop :=
  forall before r, exists response page,
    session_request w before r = Ret response
    /\ text response = Ret page
    /\ str_in "action=logout" page = false.

(** The coroutine stops at its first request, with the error of a lost
    login. *)
Definition stops_at_login {A} (m : M base.provider A) : Prop :=
  forall p, exists r p',
    m p = (Raise (AuthenticationError "登录状态已失效，请重新登录"), p')
    /\ base.sent p' = (base.sent p ++ [r])%list.

(** The log records of one processed record, given how its handler ended. *)
Definition report (provider_name : string) (o : outcome base.HandlerResult)
  : list base.log_record :=
  base.Info_processing provider_name
  :: match o with
     | Ret result =>
         if base.success result
         then [base.Info_success provider_name (base.message result)]
         else base.Error_failure provider_name (base.message result)
              :: match base.error result with
                 | Some e => if str_truthy e then [base.Error_details e] else []
                 | None => []
                 end
     | Raise e => [base.Error_handler_exception provider_name e]
     end.

(** A batch in which no record can stop the next one: the handler is
    invoked on every record in order, each time on the provider as the
    previous invocation left it, and every outcome is reported. *)
Fixpoint isolated_batch `{base.Provider} (w : world) (kwargs : gmap string pyval)
    (providers : list (string * gmap string pyval)) (p : base.provider)
  : list (string * outcome base.HandlerResult) * base.provider :=
  match providers with
  | [] => ([], p)
  | (provider_name, provider_data) :: rest =>
      match base.handler w provider_data provider_name kwargs p with
      | (o, p1) =>
          match isolated_batch w kwargs rest p1 with
          | (os, p2) => ((provider_name, o) :: os, p2)
          end
      end
  end.

(** No handle is held: neither a store client nor an HTTP session. *)
Definition released (s : base.state) : Prop :=
  db._client (db.handle (base.db s)) = None
  /\ base._session (base.self s) = None.


(** The query arguments [run] derives from its keyword arguments. *)
Definition run_name (kwargs : gmap string pyval) : pyval :=
  default VNone (kwargs !! "name").

Definition run_provider_type `{base.Provider} (kwargs : gmap string pyval) : pyval :=
  default (VStr base.class_name) (kwargs !! "provider_type").

(** ** Sample sites, documents and stores *)

Module sample.
Import base.

Definition leaf (a : gmap string string) : Tag := mkTag a "" (fun _ => []).

(** [<input name=... value=...>]. *)
Definition input (name value : string) : Tag :=
  leaf (<["name" := name]> (<["value" := value]> ∅)).

(** A form with the given action and inputs. *)
Definition form (action : string) (inputs : list Tag) : Tag :=
  mkTag (<["action" := action]> ∅) ""
        (fun css => if String.eqb css "input" then inputs else []).

(** A listed member whose avatar links to [href]. *)
Definition member (href : string) : Tag :=
  mkTag ∅ ""
        (fun css => if String.eqb css "div.avt a"
                    then [leaf (<["href" := href]> ∅)] else []).

Definition sign_form : Tag :=
  form "/plugin.php?id=dsu_paulsign:sign&operation=qiandao/"
       [input "formhash" "abc"; leaf (<["name" := "qdxq"]> ∅);
        leaf (<["value" := "unnamed"]> ∅)].

Definition poke_form : Tag :=
  form "home.php?mod=spacecp&ac=poke" [input "formhash" "abc"; input "note" ""].

(** A page with a sign form, a poke form and [members] listed. *)
Definition page (members : list Tag) : Tag :=
  mkTag ∅ ""
        (fun css =>
           if String.eqb css "#qiandao" then [sign_form]
           else if String.eqb css "#ct form" then [poke_form]
           else if String.eqb css "ul.buddy li.bbda" then members
           else []).

Definition three_members : list Tag :=
  [member "space-uid-101.html"; member "home.php?mod=space&uid=102";
   member "home.php?mod=space&uid=103&do=profile"].

(** A form with two inputs of one name. *)
Definition twice : Tag :=
  mkTag ∅ ""
        (fun css => if String.eqb css "#f"
                    then [form "" [input "a" "1"; input "a" "2"]] else []).

Definition body (s : string) : outcome ClientResponse := Ret {| text := Ret s |}.

Definition logged_in : string := "<a href='member.php?mod=logging&action=logout'>".

(** A site that answers the [k]-th request with [answers k], lists
    [members] on every page, and a store that yields [docs]. *)
Definition site (answers : nat -> outcome ClientResponse) (members : list Tag)
    (docs : list document) : world :=
  {| session_request := fun sent _ => answers (length sent);
     session_close := Ret tt;
     BeautifulSoup := fun _ => page members;
     random_draw := fun k => k;
     create_index := Ret tt;
     find_sorted := fun _ => Ret docs;
     motor_close := Ret tt |}.

(** Every answer is a page of a logged-in user. *)
Definition friendly : world := site (fun _ => body logged_in) three_members [].

(** Every answer is a page asking to log in. *)
Definition logged_out : world := site (fun _ => body "please log in") three_members [].


(** Logged in, with only two members listed. *)
Definition lonely : world :=
  site (fun _ => body logged_in) [member "space-uid-101.html"; member "?uid=77"] [].

(** Pokes: each poke page is fine; the POST of the second poke fails and
    the others answer with the success text. *)
Definition poking : world :=
  site (fun k => match k with
                 | 4%nat => Raise (ClientError "Server disconnected")
                 | _ => body (logged_in +:+ discuz.success_text_default)
                 end)
       three_members [].

Definition account (name password : string) : document :=
  {| doc_name := name;
     doc_data := <["username" := VStr name]> (<["password" := VStr password]> ∅) |}.

(** Three accounts; the request made for the second one fails. *)
Definition three_accounts : world :=
  site (fun k => match k with
                 | 1%nat => Raise (ClientError "Cannot connect to host")
                 | _ => body "Welcome acct1"
                 end)
       []
       [account "acct1" "x"; account "acct2" "y"; account "acct3" "z"].

(** One account; closing the HTTP session fails. *)
Definition failing_release : world :=
  {| session_request := fun _ _ => body "Welcome acct1";
     session_close := Raise (ClientError "Connector is closed");
     BeautifulSoup := fun _ => page [];
     random_draw := fun k => k;
     create_index := Ret tt;
     find_sorted := fun _ => Ret [account "acct1" "x"];
     motor_close := Ret tt |}.



(** One account; closing the store client fails. *)
Definition failing_store_close : world :=
  {| session_request := fun _ _ => body "Welcome acct1";
     session_close := Ret tt;
     BeautifulSoup := fun _ => page [];
     random_draw := fun k => k;
     create_index := Ret tt;
     find_sorted := fun _ => Ret [account "acct1" "x"];
     motor_close := Raise (PyMongoError "close failed") |}.

(** The store is reached but the query fails. *)
Definition failing_query : world :=
  {| session_request := fun _ _ => body "";
     session_close := Ret tt;
     BeautifulSoup := fun _ => page [];
     random_draw := fun k => k;
     create_index := Ret tt;
     find_sorted := fun _ => Raise (PyMongoError "OperationFailure");
     motor_close := Ret tt |}.

(** Logged in, and every page has a credit region. *)
Definition credits : world :=
  {| session_request := fun _ _ => body logged_in;
     session_close := Ret tt;
     BeautifulSoup :=
       fun _ =>
         mkTag ∅ ""
               (fun css =>
                  if String.eqb css ".creditl"
                  then [mkTag ∅ " <em>credits: </em>12 (前往兌換商城) " (fun _ => [])]
                  else []);
     random_draw := fun k => k;
     create_index := Ret tt;
     find_sorted := fun _ => Ret [];
     motor_close := Ret tt |}.

(** A connected store. *)
Definition connected : db.store :=
  {| db.handle :=
       {| db.db_url := "mongodb://localhost";
          db._client := Some {| db.client_url := "mongodb://localhost" |};
          db.collection :=
            Some {| db.coll_client := {| db.client_url := "mongodb://localhost" |};
                    db.coll_db := "db0";
                    db.coll_name := "providers" |} |};
     db.driver_calls := [db.Create_index] |}.

Definition forum : provider := set_base_url "https://forum.example" __init__.

(** The process state right after the imports, with [MONGO_URL] set. *)
Definition started : state :=
  {| self := __init__;
     db := {| db.handle := {| db.db_url := "mongodb://localhost";
                              db._client := None;
                              db.collection := None |};
              db.driver_calls := [] |};
     log := [] |}.

End sample.


(** * Properties *)

(** ** Auxiliary facts *)

Ltac run_monad :=
  unfold bind, get, modify, ret, raise, await, try_except, try_finally; simpl.

Lemma has_user_agent_spec (headers : gmap string string) :
  base.has_user_agent headers = true
  <-> exists k, k ∈ dom headers /\ lower k = "user-agent".
Proof.
  unfold base.has_user_agent. rewrite bool_decide_eq_true, elem_of_map.
  split; intros (k & H1 & H2); exists k; auto.
Qed.

(** ** The HTTP fetch primitive *)

(** C7.  Every call of [fetch] sends exactly one request, built from the
    arguments as follows: the default User-Agent is added when no supplied
    header name lowers to [user-agent], and the supplied headers are passed
    unchanged otherwise; the method is POST whenever [data] or the [json]
    keyword is truthy, and the given method otherwise; the [ssl] keyword is
    [False] unless the caller supplies one; the timeout is
    [ClientTimeout(total=30)] unless the caller supplies one. *)
Theorem fetch_defaults (w : world) (url : string) (data : option (gmap string pyval))
    (method : string) (kwargs : fetch_kwargs) (p : base.provider) :
  exists r p',
    base.fetch w url data method kwargs p = (session_request w (base.sent p) r, p')
    /\ base.sent p' = (base.sent p ++ [r])%list
    /\ req_url r = url /\ req_data r = data
    /\ ((forall k, k ∈ dom (default ∅ (kw_headers kwargs)) -> lower k <> "user-agent") ->
        req_headers r = <["User-Agent" := base.USER_AGENT]> (default ∅ (kw_headers kwargs)))
    /\ ((exists k, k ∈ dom (default ∅ (kw_headers kwargs)) /\ lower k = "user-agent") ->
        req_headers r = default ∅ (kw_headers kwargs))
    /\ (opt_truthy dict_truthy data = true \/
        opt_truthy truthy (kw_rest kwargs !! "json") = true ->
        req_method r = "POST")
    /\ (opt_truthy dict_truthy data = false ->
        opt_truthy truthy (kw_rest kwargs !! "json") = false ->
        req_method r = method)
    /\ (kw_rest kwargs !! "ssl" = None -> req_kwargs r !! "ssl" = Some (VBool false))
    /\ (forall v, kw_rest kwargs !! "ssl" = Some v -> req_kwargs r !! "ssl" = Some v)
    /\ (kw_timeout kwargs = None -> req_timeout r = Some {| total := Some 30 |}).
Proof.
  unfold base.fetch, base.session, base.session_request_on.
  set (hs := default ∅ (kw_headers kwargs)).
  set (rest := match kw_rest kwargs !! "ssl" with
               | Some _ => kw_rest kwargs
               | None => <["ssl" := VBool false]> (kw_rest kwargs)
               end).
  assert (Hjson : rest !! "json" = kw_rest kwargs !! "json").
  { subst rest. destruct (kw_rest kwargs !! "ssl"); [done|].
    by rewrite lookup_insert_ne. }
  run_monad.
  destruct (base._session p); simpl; (eexists _, _; split; [reflexivity|]);
    (split; [reflexivity|]); simpl; repeat split.
  all: try (intros Hno; destruct (base.has_user_agent hs) eqn:E; [|done];
            apply has_user_agent_spec in E as (k & Hk & Hl); by destruct (Hno k Hk)).
  all: try (intros Hyes; apply has_user_agent_spec in Hyes; fold hs; by rewrite Hyes).
  all: try (rewrite Hjson; intros [-> | ->]; [done|]; by rewrite orb_true_r).
  all: try (rewrite Hjson; by intros -> ->).
  all: try (subst rest; intros ->; by rewrite lookup_insert_eq).
  all: try (subst rest; intros v Hv; by rewrite Hv).
  all: by intros ->.
Qed.

(** ** The built-ins on concrete values *)

Example str_in_logout : str_in "action=logout" sample.logged_in = true.
Proof. reflexivity. Qed.

Example str_in_absent : str_in "action=logout" "action=login" = false.
Proof. reflexivity. Qed.

Example strip_slashes : strip "/" "//plugin.php?a=/b//" = "plugin.php?a=/b".
Proof. reflexivity. Qed.

Example lower_header : lower "User-AGENT" = "user-agent".
Proof. reflexivity. Qed.

Example has_user_agent_any_case :
  base.has_user_agent (<["USER-Agent" := "curl"]> ∅) = true
  /\ base.has_user_agent (<["Cookie" := "sid=1"]> ∅) = false.
Proof. split; vm_compute; reflexivity. Qed.

Example uid_of_links :
  discuz.UID_PATTERN_search "space-uid-101.html" = Some "101"
  /\ discuz.UID_PATTERN_search "home.php?mod=space&uid=102&do=profile" = Some "102"
  /\ discuz.UID_PATTERN_search "home.php?uid=&x=uid-42" = Some "42"
  /\ discuz.UID_PATTERN_search "home.php?id=7" = None.
Proof. repeat split; reflexivity. Qed.

Example str_of_counts :
  str_of_nat 0 = "0" /\ str_of_nat 11 = "11" /\ str_of_nat 100 = "100".
Proof. repeat split; reflexivity. Qed.

Example falsy_defaults :
  int_or (Some 0) 10 = 10 /\ int_or None 10 = 10 /\ int_or (Some 4) 10 = 4.
Proof. repeat split; reflexivity. Qed.

(** The batch of three accounts whose second request fails: the first
    logs in, the second is reported with its exception, the third is still
    handled. *)
Example batch_of_three :
  base.log (@base.run afraid.Afraid sample.three_accounts ∅ sample.started).2
  = [base.Info_processing "acct1";
     base.Info_success "acct1" "Login successful for acct1";
     base.Info_processing "acct2";
     base.Error_handler_exception "acct2" (ClientError "Cannot connect to host");
     base.Info_processing "acct3";
     base.Error_failure "acct3" "Login failed for acct3";
     base.Error_details "Username not found in response page"].
Proof. vm_compute; reflexivity. Qed.

(** Three pokes, the POST of the second one fails: the first and the third
    UID are confirmed. *)
Example pokes_of_three :
  (discuz.poke sample.poking discuz.success_text_default (Some 3) None no_kwargs
     sample.forum).1
  = Ret [discuz.confirmation "101"; discuz.confirmation "103"].
Proof. vm_compute; reflexivity. Qed.

(** ** Substring search *)

Lemma prefix_spec (n h : string) :
  String.prefix n h = true <-> exists post, h = n +:+ post.
Proof.
  revert h. induction n as [|a n IH]; intros h; destruct h as [|b h]; simpl.
  - split; [intros _; by exists "" | done].
  - split; [intros _; by exists (String b h) | done].
  - split; [done | intros (post & Hp); discriminate].
  - destruct (Ascii.ascii_dec a b) as [->|Hne].
    + rewrite IH. split; intros (post & Hp); exists post.
      * by rewrite Hp.
      * by injection Hp.
    + split; [done | intros (post & Hp); injection Hp; done].
Qed.

Lemma str_in_unfold (n h : string) :
  str_in n h
  = String.prefix n h
    || match h with
       | EmptyString => false
       | String _ rest => str_in n rest
       end.
Proof. by destruct h. Qed.

(** [str_in] is substring search: the needle occurs between some prefix
    and some suffix of the haystack. *)
Lemma str_in_spec (n h : string) :
  str_in n h = true <-> exists pre post, h = pre +:+ n +:+ post.
Proof.
  induction h as [|b h IH]; rewrite str_in_unfold, orb_true_iff, prefix_spec.
  - split.
    + intros [(post & Hp) | ?]; [|done]. by exists "", post.
    + intros (pre & post & Hp). destruct pre; [left; by exists post|discriminate].
  - rewrite IH. split.
    + intros [(post & Hp) | (pre & post & Hp)].
      * by exists "", post.
      * exists (String b pre), post. simpl. by rewrite Hp.
    + intros (pre & post & Hp). destruct pre as [|c pre]; simpl in Hp.
      * left. by exists post.
      * right. exists pre, post. by injection Hp.
Qed.

(** ** Session validity: [request] *)

(** C1.  Whatever body the fetch of [request] delivers: when the body does
    not contain [action=logout], [request] raises [AuthenticationError] (so
    no body is returned); when it does, [request] returns the body. *)
Theorem request_checks_logout_marker (w : world) (url : string)
    (data : option (gmap string pyval)) (method : string) (kwargs : fetch_kwargs)
    (p p' : base.provider) (response : ClientResponse) (body : string) :
  base.fetch w url data method kwargs p = (Ret response, p') ->
  text response = Ret body ->
  (str_in "action=logout" body = false ->
   discuz.request w url data method kwargs p
   = (Raise (AuthenticationError "登录状态已失效，请重新登录"), p'))
  /\ (str_in "action=logout" body = true ->
      discuz.request w url data method kwargs p = (Ret body, p')).
Proof.
  intros Hfetch Htext.
  split; intros Hin; unfold discuz.request, bind, await;
    rewrite Hfetch, Htext; cbv beta iota; by rewrite Hin.
Qed.

(** ** Form parameter extraction *)

(** Appending an input that is not named [k] changes nothing for [k]. *)
Lemma last_named_snoc_other (inputs : list Tag) (x : Tag) (k v : string) :
  attrs x !! "name" <> Some k ->
  last_named (inputs ++ [x]) k v <-> last_named inputs k v.
Proof.
  intros Hother.
  assert (Hx : (inputs ++ [x])%list !! length inputs = Some x).
  { rewrite lookup_app_r by lia. by rewrite Nat.sub_diag. }
  split; intros (i & t & Hi & Hn & Hk & Hv & Hlater).
  - destruct (decide (i < length inputs)%nat) as [Hlt|Hge].
    + exists i, t. rewrite lookup_app_l in Hi by done. repeat split; auto.
      intros j t' Hij Hj. apply (Hlater j t' Hij).
      rewrite lookup_app_l; [done | by eapply lookup_lt_Some].
    + apply lookup_lt_Some in Hi as Hlen. rewrite length_app in Hlen. simpl in Hlen.
      replace i with (length inputs) in Hi by lia.
      rewrite Hx in Hi. injection Hi as <-. by destruct Hother.
  - exists i, t. repeat split; auto.
    + rewrite lookup_app_l; [done | by eapply lookup_lt_Some].
    + intros j t' Hij Hj.
      destruct (decide (j < length inputs)%nat) as [Hlt|Hge].
      * rewrite lookup_app_l in Hj by done. eauto.
      * apply lookup_lt_Some in Hj as Hlen. rewrite length_app in Hlen. simpl in Hlen.
        replace j with (length inputs) in Hj by lia.
        rewrite Hx in Hj. by injection Hj as <-.
Qed.

(** An appended input with the non-empty name [k] decides the value of [k]. *)
Lemma last_named_snoc_same (inputs : list Tag) (x : Tag) (k v : string) :
  attrs x !! "name" = Some k ->
  k <> "" ->
  last_named (inputs ++ [x]) k v <-> v = default "" (attrs x !! "value").
Proof.
  intros Hname Hk.
  assert (Hx : (inputs ++ [x])%list !! length inputs = Some x).
  { rewrite lookup_app_r by lia. by rewrite Nat.sub_diag. }
  split.
  - intros (i & t & Hi & Hn & _ & Hv & Hlater).
    apply lookup_lt_Some in Hi as Hlen. rewrite length_app in Hlen. simpl in Hlen.
    destruct (decide (i = length inputs)) as [->|Hneq].
    + rewrite Hx in Hi. by injection Hi as <-.
    + exfalso. apply (Hlater (length inputs) x); [lia | done | done].
  - intros ->. exists (length inputs), x. repeat split; auto.
    intros j t' Hij Hj. apply lookup_lt_Some in Hj.
    rewrite length_app in Hj. simpl in Hj. lia.
Qed.

Lemma fold_add_input_lookup (inputs : list Tag) (k v : string) :
  fold_left discuz.add_input inputs ∅ !! k = Some v <-> last_named inputs k v.
Proof.
  induction inputs as [|x inputs IH] using rev_ind.
  - simpl. rewrite lookup_empty. split; [done|].
    intros (i & t & Hi & _). by rewrite lookup_nil in Hi.
  - rewrite fold_left_app. simpl. unfold discuz.add_input at 1.
    replace (if str_truthy (default "" (attrs x !! "value"))
             then default "" (attrs x !! "value") else "")
      with (default "" (attrs x !! "value"))
      by (unfold str_truthy; by destruct (String.eqb_spec (default "" (attrs x !! "value")) "")).
    destruct (attrs x !! "name") as [name|] eqn:Hname.
    + unfold str_truthy. destruct (String.eqb_spec name "") as [->|Hne]; simpl.
      * (* an empty name: the input is skipped *)
        rewrite IH. destruct (decide (k = "")) as [->|Hk].
        -- split; intros (i & t & _ & _ & Hk & _); by destruct Hk.
        -- symmetry. apply last_named_snoc_other. rewrite Hname. congruence.
      * (* a named input: it overrides what was collected under its name *)
        destruct (decide (name = k)) as [->|Hnk].
        -- rewrite lookup_insert_eq, (last_named_snoc_same _ _ _ _ Hname Hne).
           split; [by intros [= <-] | by intros ->].
        -- rewrite lookup_insert_ne, IH by done. symmetry.
           apply last_named_snoc_other. rewrite Hname. congruence.
    + (* no name attribute: the input is skipped *)
      rewrite IH. symmetry. apply last_named_snoc_other. by rewrite Hname.
Qed.

(** C6 (as amended).  The parameters extracted from the form selected by
    [form_selector] are exactly these: a name [k] is bound to [v] when some
    input of the form has the non-empty name [k] and the value [v] (the
    empty string when the value attribute is missing) and no later input
    of the form has the same name.  Inputs with no name or with an empty
    name bind nothing; of several inputs with one name the last one wins. *)
Theorem extract_form_params_lookup (soup : Tag) (form_selector k v : string) :
  discuz._extract_form_params soup form_selector !! k = Some v
  <-> exists form i _input,
        select_one soup form_selector = Some form
        /\ select form "input" !! i = Some _input
        /\ attrs _input !! "name" = Some k
        /\ k <> ""
        /\ v = default "" (attrs _input !! "value")
        /\ forall j _input', (i < j)%nat -> select form "input" !! j = Some _input' ->
                             attrs _input' !! "name" <> Some k.
Proof.
  unfold discuz._extract_form_params.
  destruct (select_one soup form_selector) as [form|].
  - rewrite fold_add_input_lookup. split.
    + intros (i & t & H). exists form, i, t. by split.
    + intros (form' & i & t & [= <-] & H). by exists i, t.
  - rewrite lookup_empty. split; [done|].
    by intros (form' & i & t & ? & _).
Qed.

(** ** Effects of the request primitives *)

(** A dictionary that was just assigned a key is truthy. *)
Lemma dict_truthy_insert' {A} (k : string) (v : A) (d : gmap string A) :
  dict_truthy (<[k := v]> d) = true.
Proof.
  unfold dict_truthy. destruct (size (<[k := v]> d)) eqn:E; [|done].
  apply map_size_empty_inv in E. by apply insert_non_empty in E.
Qed.

Lemma dict_truthy_insert {A} (k : string) (v : A) (d : gmap string A) :
  opt_truthy dict_truthy (Some (<[k := v]> d)) = true.
Proof.
  simpl. unfold dict_truthy.
  destruct (size (<[k := v]> d)) eqn:E; [|done].
  apply map_size_empty_inv in E. by apply insert_non_empty in E.
Qed.

Lemma sends_nil (p : base.provider) : sends p p [].
Proof. unfold sends. by rewrite app_nil_r. Qed.

Lemma sends_trans (p p' p'' : base.provider) (rs rs' : list http_request) :
  sends p p' rs -> sends p' p'' rs' -> sends p p'' (rs ++ rs')%list.
Proof.
  intros (H1 & H2 & H3) (H1' & H2' & H3'). unfold sends.
  rewrite H1', H1, H2', H2, H3', H3. by rewrite app_assoc.
Qed.

(** [fetch] sends one request, which does not depend on the provider. *)
Lemma fetch_effect (w : world) (url : string) (data : option (gmap string pyval))
    (method : string) (kwargs : fetch_kwargs) :
  exists r,
    req_url r = url /\ req_data r = data
    /\ (opt_truthy dict_truthy data = true -> req_method r = "POST")
    /\ forall p, exists p',
         base.fetch w url data method kwargs p = (session_request w (base.sent p) r, p')
         /\ sends p p' [r].
Proof.
  unfold base.fetch, base.session, base.session_request_on.
  eexists. split; [|split; [|split]]; cycle 3.
  - intros p. run_monad.
    destruct (base._session p); simpl; eexists; (split; [reflexivity|]);
      unfold sends; simpl; auto.
  - reflexivity.
  - reflexivity.
  - simpl. by intros ->.
Qed.

(** [request] sends one request to [url], whatever its outcome. *)
Lemma request_effect (w : world) (url : string) (data : option (gmap string pyval))
    (method : string) (kwargs : fetch_kwargs) (p : base.provider) :
  exists r p' o,
    discuz.request w url data method kwargs p = (o, p')
    /\ req_url r = url /\ sends p p' [r].
Proof.
  destruct (fetch_effect w url data method kwargs) as (r & Hu & _ & _ & Hf).
  destruct (Hf p) as (p' & Hfetch & Hs).
  exists r, p'. unfold discuz.request, bind, await. rewrite Hfetch.
  destruct (session_request w (base.sent p) r) as [response|e]; [|by eexists].
  destruct (text response) as [body|e]; [|by eexists].
  destruct (negb (str_in "action=logout" body)); by eexists.
Qed.

(** ** Sampling *)

Lemma choice_spec {A} (w : world) (xs : list A) (p : base.provider) :
  xs <> [] ->
  exists x,
    xs !! (random_draw w (base.draws p) mod length xs)%nat = Some x
    /\ discuz.choice w xs p = (Ret x, base.add_draw p).
Proof.
  intros Hne.
  assert (random_draw w (base.draws p) mod length xs < length xs)%nat as Hlt.
  { apply Nat.mod_upper_bound. by destruct xs. }
  apply lookup_lt_is_Some_2 in Hlt as (x & Hx).
  exists x. split; [done|].
  unfold discuz.choice. run_monad. by rewrite Hx.
Qed.

(** A comprehension over [random.choice] draws once per index, each time
    from the whole list: the [i]-th pick is the element the [i]-th draw
    points at, whatever was picked before. *)
Lemma sample_spec {A B} (w : world) (xs : list A) (l : list B) (p : base.provider) :
  xs <> [] ->
  exists selected,
    discuz.comprehension l (fun _ => discuz.choice w xs) p
    = (Ret selected, Nat.iter (length l) base.add_draw p)
    /\ length selected = length l
    /\ forall i, (i < length l)%nat ->
         selected !! i = xs !! (random_draw w (base.draws p + i) mod length xs)%nat.
Proof.
  intros Hne. revert p. induction l as [|b l IH]; intros p.
  - exists []. repeat split. intros i Hi. simpl in Hi. lia.
  - destruct (choice_spec w xs p Hne) as (x & Hx & Hc).
    destruct (IH (base.add_draw p)) as (sel & Hsel & Hlen & Hnth).
    exists (x :: sel). split; [|split].
    + simpl. unfold bind at 1. rewrite Hc. unfold bind at 1. rewrite Hsel.
      unfold ret. f_equal. clear. induction (length l); simpl; congruence.
    + simpl. by rewrite Hlen.
    + intros [|i] Hi; simpl.
      * by rewrite Nat.add_0_r.
      * rewrite Hnth by (simpl in Hi; lia).
        by replace (base.draws (base.add_draw p) + i)%nat
             with (base.draws p + S i)%nat by (simpl; lia).
Qed.

Lemma iter_add_draw_sends (n : nat) (p : base.provider) :
  base.sent (Nat.iter n base.add_draw p) = base.sent p
  /\ base.draws (Nat.iter n base.add_draw p) = (base.draws p + n)%nat
  /\ base.base_url (Nat.iter n base.add_draw p) = base.base_url p.
Proof.
  induction n as [|n (H1 & H2 & H3)]; simpl.
  - repeat split. lia.
  - repeat split; [done | lia | done].
Qed.


(** ** The collecting loop of [poke] *)

(** The UIDs whose paired result is a success, in list order. *)
Lemma collect_spec (poke_results : list (outcome bool)) :
  forall (i : nat) (selected_uids : list string),
    length selected_uids = (i + length poke_results)%nat ->
    discuz.collect i selected_uids poke_results
    = Ret (discuz.confirmation
             <$> (filter (fun ur => discuz.succeeded ur.2 = true)
                         (zip (drop i selected_uids) poke_results)).*1).
Proof.
  induction poke_results as [|r rest IH]; intros i sel Hlen.
  - simpl. by rewrite zip_with_nil_r.
  - simpl in Hlen.
    assert (i < length sel)%nat as Hi by lia.
    apply lookup_lt_is_Some_2 in Hi as (uid & Huid).
    simpl. rewrite Huid, (IH (S i) sel) by lia.
    rewrite (drop_S _ _ _ Huid). simpl. rewrite filter_cons. simpl.
    destruct (discuz.succeeded r) eqn:E.
    + rewrite decide_True by done. reflexivity.
    + rewrite decide_False by done. reflexivity.
Qed.


(** ** One poke *)

(** [_send_poke] first requests the poke page of the UID; when it returns
    a boolean, a POST was sent to the poke action and the boolean tells
    whether the success text occurs in the body of its response. *)
Lemma send_poke_effect (w : world) (uid : string) (iconid : Z) (success_text : string)
    (kwargs : fetch_kwargs) (p : base.provider) :
  exists r rs p' o,
    discuz._send_poke w uid iconid success_text kwargs p = (o, p')
    /\ sends p p' (r :: rs)
    /\ req_url r
       = base.base_url p +:+ "/home.php?mod=spacecp&ac=poke&op=send&uid=" +:+ uid
    /\ forall b, o = Ret b ->
         exists post response response_text,
           rs = [post]
           /\ req_method post = "POST"
           /\ req_url post = req_url r +:+ "&inajax=1"
           /\ session_request w (base.sent p ++ [r])%list post = Ret response
           /\ text response = Ret response_text
           /\ b = str_in success_text response_text.
Proof.
  unfold discuz._send_poke. unfold bind at 1, get at 1.
  set (poke_url := base.base_url p +:+ _ +:+ uid).
  destruct (request_effect w poke_url None "GET" kwargs p)
    as (r & p1 & o1 & Hreq & Hurl & Hs1).
  unfold bind at 1. rewrite Hreq.
  destruct o1 as [page|e].
  - set (params := <["note" := VStr "hello"]> _).
    destruct (fetch_effect w (poke_url +:+ "&inajax=1") (Some params) "GET" kwargs)
      as (post & Hpu & Hpd & Hpm & Hf).
    destruct (Hf p1) as (p2 & Hfetch & Hs2).
    unfold bind at 1. rewrite Hfetch.
    assert (Hsent1 : base.sent p1 = (base.sent p ++ [r])%list) by apply Hs1.
    pose proof (sends_trans _ _ _ _ _ Hs1 Hs2) as Hs.
    destruct (session_request w (base.sent p1) post) as [response|e] eqn:Hresp.
    + unfold bind, await, ret.
      destruct (text response) as [response_text|e] eqn:Htext.
      * exists r, [post], p2, (Ret (str_in success_text response_text)).
        repeat split; try done; try apply Hs.
        intros b [= <-]. exists post, response, response_text.
        repeat split; try done.
        -- apply Hpm. apply dict_truthy_insert.
        -- by rewrite Hpu, Hurl.
        -- by rewrite <- Hsent1.
      * exists r, [post], p2, (Raise e).
        repeat split; try done; apply Hs.
    + exists r, [post], p2, (Raise e).
      repeat split; try done; apply Hs.
  - exists r, [], p1, (Raise e). repeat split; try done; apply Hs1.
Qed.

(** Gathering the pokes of a list of UIDs: each one contributes its own
    requests, the first of which goes to the poke page of its UID. *)
Lemma gather_pokes (w : world) (iconid : Z) (success_text : string)
    (kwargs : fetch_kwargs) (selected_uids : list string) (p : base.provider) :
  exists rss poke_results p',
    gather_return_exceptions
      (map (fun uid => discuz._send_poke w uid iconid success_text kwargs) selected_uids) p
    = (Ret poke_results, p')
    /\ length poke_results = length selected_uids
    /\ sends p p' (concat rss)
    /\ Forall2 (fun uid rs =>
                  exists r rest, rs = r :: rest
                    /\ req_url r
                       = base.base_url p
                         +:+ "/home.php?mod=spacecp&ac=poke&op=send&uid=" +:+ uid)
               selected_uids rss.
Proof.
  revert p. induction selected_uids as [|uid uids IH]; intros p.
  - exists [], [], p. repeat split; try done. apply sends_nil.
  - destruct (send_poke_effect w uid iconid success_text kwargs p)
      as (r & rs & p1 & o & Hrun & Hs1 & Hurl & _).
    destruct (IH p1) as (rss & os & p2 & Hg & Hlen & Hs2 & Hall).
    exists ((r :: rs) :: rss), (o :: os), p2. simpl.
    rewrite Hrun, Hg. repeat split.
    + by rewrite Hlen.
    + apply (sends_trans _ _ _ _ _ Hs1 Hs2).
    + apply (sends_trans _ _ _ _ _ Hs1 Hs2).
    + apply (sends_trans _ _ _ _ _ Hs1 Hs2).
    + constructor; [by exists r, rs|].
      destruct Hs1 as (_ & _ & Hb). by rewrite <- Hb.
Qed.

(** ** [poke] and [views] on a large enough population *)

Lemma poke_spec (w : world) (success_text : string) (poke_num iconid : option Z)
    (kwargs : fetch_kwargs) (p p1 : base.provider) (uid_list : list string) :
  discuz.get_users w kwargs p = (Ret uid_list, p1) ->
  (2 < length uid_list)%nat ->
  exists selected_uids rss poke_results p3,
    length selected_uids = Z.to_nat (int_or poke_num discuz.POKE_DEFAULT_NUM)
    /\ (forall i, (i < length selected_uids)%nat ->
          selected_uids !! i
          = uid_list !! (random_draw w (base.draws p1 + i) mod length uid_list)%nat)
    /\ gather_return_exceptions
         (map (fun uid => discuz._send_poke w uid
                            (int_or iconid discuz.POKE_DEFAULT_ICONID)
                            success_text kwargs)
              selected_uids)
         (Nat.iter (length selected_uids) base.add_draw p1)
       = (Ret poke_results, p3)
    /\ length poke_results = length selected_uids
    /\ base.sent p3 = (base.sent p1 ++ concat rss)%list
    /\ Forall2 (fun uid rs =>
                  exists r rest, rs = r :: rest
                    /\ req_url r
                       = base.base_url p1
                         +:+ "/home.php?mod=spacecp&ac=poke&op=send&uid=" +:+ uid)
               selected_uids rss
    /\ base.draws p3 = (base.draws p1 + length selected_uids)%nat
    /\ discuz.poke w success_text poke_num iconid kwargs p
       = (Ret (discuz.confirmation
                 <$> (filter (fun ur => discuz.succeeded ur.2 = true)
                             (zip selected_uids poke_results)).*1),
          p3).
Proof.
  intros Hget Hbig.
  assert (uid_list <> []) as Hne by (destruct uid_list; [simpl in Hbig; lia | done]).
  set (n := int_or poke_num discuz.POKE_DEFAULT_NUM).
  destruct (sample_spec w uid_list (range n) p1 Hne) as (sel & Hsel & Hlen & Hnth).
  unfold range in Hlen, Hsel, Hnth. rewrite length_seq in Hlen, Hsel, Hnth.
  destruct (gather_pokes w (int_or iconid discuz.POKE_DEFAULT_ICONID) success_text
              kwargs sel (Nat.iter (Z.to_nat n) base.add_draw p1))
    as (rss & os & p3 & Hg & Hlos & Hs & Hall).
  destruct (iter_add_draw_sends (Z.to_nat n) p1) as (I1 & I2 & I3).
  destruct Hs as (S1 & S2 & S3).
  exists sel, rss, os, p3. rewrite !Hlen. repeat split; try done.
  - by rewrite Hlos.
  - by rewrite S1, I1.
  - rewrite I3 in Hall. exact Hall.
  - by rewrite S2, I2.
  - unfold discuz.poke. fold n. unfold bind at 1. rewrite Hget.
    replace (Z.of_nat (length uid_list) <=? discuz.MIN_USER_COUNT) with false
      by (symmetry; apply Z.leb_gt; unfold discuz.MIN_USER_COUNT; lia).
    unfold bind at 1. unfold range. rewrite Hsel.
    unfold bind at 1. rewrite Hg. unfold await.
    by rewrite (collect_spec os 0 sel), drop_0 by (simpl; lia).
Qed.

(** Gathering fetches of a list of URLs sends one request per URL, in order. *)
Lemma gather_fetches (w : world) (kwargs : fetch_kwargs) (urls : list string)
    (p : base.provider) :
  exists rs os p',
    gather_return_exceptions (map (fun u => base.fetch w u None "GET" kwargs) urls) p
    = (Ret os, p')
    /\ length os = length urls
    /\ sends p p' rs
    /\ map req_url rs = urls.
Proof.
  revert p. induction urls as [|u urls IH]; intros p.
  - exists [], [], p. repeat split; try done. apply sends_nil.
  - destruct (fetch_effect w u None "GET" kwargs) as (r & Hu & _ & _ & Hf).
    destruct (Hf p) as (p1 & Hfetch & Hs1).
    destruct (IH p1) as (rs & os & p2 & Hg & Hlen & Hs2 & Hurls).
    exists (r :: rs), (session_request w (base.sent p) r :: os), p2. simpl.
    rewrite Hfetch, Hg. repeat split.
    + by rewrite Hlen.
    + apply (sends_trans _ _ _ _ _ Hs1 Hs2).
    + apply (sends_trans _ _ _ _ _ Hs1 Hs2).
    + apply (sends_trans _ _ _ _ _ Hs1 Hs2).
    + by rewrite Hu, Hurls.
Qed.

Lemma views_spec (w : world) (kwargs : fetch_kwargs) (p p1 : base.provider)
    (uid_list : list string) :
  discuz.get_users w kwargs p = (Ret uid_list, p1) ->
  (2 < length uid_list)%nat ->
  exists selected_uids rs o p3,
    length selected_uids = 11%nat
    /\ (forall i, (i < 11)%nat ->
          selected_uids !! i
          = uid_list !! (random_draw w (base.draws p1 + i) mod length uid_list)%nat)
    /\ base.sent p3 = (base.sent p1 ++ rs)%list
    /\ map req_url rs
       = map (fun uid => base.base_url p1 +:+ "/space-uid-" +:+ uid +:+ ".html")
             selected_uids
    /\ base.draws p3 = (base.draws p1 + 11)%nat
    /\ discuz.views w kwargs p = (o, p3)
    /\ (forall v, o = Ret v -> v = "Viewed 11 user profiles").
Proof.
  intros Hget Hbig.
  assert (uid_list <> []) as Hne by (destruct uid_list; [simpl in Hbig; lia | done]).
  destruct (sample_spec w uid_list (range discuz.VIEW_COUNT) p1 Hne)
    as (sel & Hsel & Hlen & Hnth).
  change (length (range discuz.VIEW_COUNT)) with 11%nat in *.
  set (p2 := Nat.iter 11 base.add_draw p1) in *.
  set (url_of := fun uid => base.base_url p1 +:+ "/space-uid-" +:+ uid +:+ ".html").
  destruct (gather_fetches w kwargs (map url_of sel) p2)
    as (rs & os & p3 & Hg & Hlos & (S1 & S2 & S3) & Hurls).
  rewrite map_map in Hg.
  assert (exists o, discuz.views w kwargs p = (o, p3)
                    /\ forall v, o = Ret v -> v = "Viewed 11 user profiles")
    as (o & Hviews & Hret).
  { unfold discuz.views. unfold bind at 1. rewrite Hget.
    replace (Z.of_nat (length uid_list) <=? discuz.MIN_USER_COUNT) with false
      by (symmetry; apply Z.leb_gt; unfold discuz.MIN_USER_COUNT; lia).
    unfold bind at 1, get at 1. unfold bind at 1. rewrite Hsel.
    unfold gather. unfold bind at 1, bind at 1.
    unfold url_of in Hg. cbv beta in Hg. rewrite Hg.
    destruct (first_raise os); unfold raise, ret.
    - eexists. split; [reflexivity|]. by intros v.
    - eexists. split; [reflexivity|]. intros v [= <-]. by rewrite Hlen. }
  exists sel, rs, o, p3.
  split; [done|]. split; [done|]. split; [by rewrite S1|].
  split; [by rewrite Hurls|].
  split; [rewrite S2; apply (iter_add_draw_sends 11 p1)|]. done.
Qed.



(** ** The poke fan-out *)


(** ** The population guard and the sample sizes *)

(** C4.  When the scan yields at most two UIDs, [views] returns
    [No users found] and [poke] returns the empty list, both leaving the
    provider exactly as the scan left it: no request beyond the scan and no
    random draw.  When it yields more, [views] draws 11 times and [poke]
    with the default count draws 10 times; the [i]-th sampled UID is the
    element of the whole population the [i]-th draw points at, so repeats
    are possible; [views] then sends one request per sampled UID, to the
    profile page of that UID, and [poke] starts one sub-operation per
    sampled UID with a request to the poke page of that UID. *)
Theorem population_guard_and_sample_sizes (w : world) (success_text : string)
    (poke_num iconid : option Z) (kwargs : fetch_kwargs) (p p1 : base.provider)
    (uid_list : list string) :
  discuz.get_users w kwargs p = (Ret uid_list, p1) ->
  ((length uid_list <= 2)%nat ->
   discuz.views w kwargs p = (Ret "No users found", p1)
   /\ discuz.poke w success_text poke_num iconid kwargs p = (Ret [], p1))
  /\ ((2 < length uid_list)%nat ->
      (exists selected_uids rs o p3,
         discuz.views w kwargs p = (o, p3)
         /\ length selected_uids = 11%nat
         /\ (forall i, (i < 11)%nat ->
               selected_uids !! i
               = uid_list !! (random_draw w (base.draws p1 + i) mod length uid_list)%nat)
         /\ base.draws p3 = (base.draws p1 + 11)%nat
         /\ base.sent p3 = (base.sent p1 ++ rs)%list
         /\ map req_url rs
            = map (fun uid => base.base_url p1 +:+ "/space-uid-" +:+ uid +:+ ".html")
                  selected_uids)
      /\ (exists selected_uids rss result p3,
            discuz.poke w success_text None iconid kwargs p = (Ret result, p3)
            /\ length selected_uids = 10%nat
            /\ (forall i, (i < 10)%nat ->
                  selected_uids !! i
                  = uid_list !! (random_draw w (base.draws p1 + i) mod length uid_list)%nat)
            /\ base.draws p3 = (base.draws p1 + 10)%nat
            /\ base.sent p3 = (base.sent p1 ++ concat rss)%list
            /\ Forall2 (fun uid rs =>
                          exists r rest, rs = r :: rest
                            /\ req_url r
                               = base.base_url p1
                                 +:+ "/home.php?mod=spacecp&ac=poke&op=send&uid="
                                 +:+ uid)
                       selected_uids rss)).
Proof.
  intros Hget. split.
  - intros Hsmall.
    assert ((Z.of_nat (length uid_list) <=? discuz.MIN_USER_COUNT) = true) as Hle
      by (apply Z.leb_le; unfold discuz.MIN_USER_COUNT; lia).
    split.
    + unfold discuz.views, bind. by rewrite Hget, Hle.
    + unfold discuz.poke, bind. by rewrite Hget, Hle.
  - intros Hbig. split.
    + destruct (views_spec w kwargs p p1 uid_list Hget Hbig)
        as (sel & rs & o & p3 & Hlen & Hnth & Hsent & Hurls & Hdraws & Hviews & _).
      by exists sel, rs, o, p3.
    + destruct (poke_spec w success_text None iconid kwargs p p1 uid_list Hget Hbig)
        as (sel & rss & os & p3 & Hlen & Hnth & _ & _ & Hsent & Hall & Hdraws & Hpoke).
      change (Z.to_nat (int_or None discuz.POKE_DEFAULT_NUM)) with 10%nat in Hlen.
      rewrite Hlen in Hnth, Hdraws.
      eexists sel, rss, _, p3. by repeat split.
Qed.

(** ** Falsy defaults of [poke] *)

(** C10.  An explicit [poke_num=0] runs exactly as [poke_num=10] and as the
    omitted argument do, and an explicit [iconid=0] exactly as [iconid=3]
    and as the omitted argument do.  So on a scanned population of more
    than two UIDs, [poke(poke_num=0)] draws 10 UIDs and starts one
    sub-operation for each, with a request to the poke page of that UID. *)
Theorem poke_zero_is_default (w : world) (success_text : string)
    (poke_num iconid : option Z) (kwargs : fetch_kwargs) (p : base.provider) :
  discuz.poke w success_text (Some 0) iconid kwargs p
  = discuz.poke w success_text (Some 10) iconid kwargs p
  /\ discuz.poke w success_text (Some 0) iconid kwargs p
     = discuz.poke w success_text None iconid kwargs p
  /\ discuz.poke w success_text poke_num (Some 0) kwargs p
     = discuz.poke w success_text poke_num (Some 3) kwargs p
  /\ discuz.poke w success_text poke_num (Some 0) kwargs p
     = discuz.poke w success_text poke_num None kwargs p
  /\ forall uid_list p1,
       discuz.get_users w kwargs p = (Ret uid_list, p1) ->
       (2 < length uid_list)%nat ->
       exists selected_uids rss result p3,
         discuz.poke w success_text (Some 0) iconid kwargs p = (Ret result, p3)
         /\ length selected_uids = 10%nat
         /\ base.draws p3 = (base.draws p1 + 10)%nat
         /\ base.sent p3 = (base.sent p1 ++ concat rss)%list
         /\ Forall2 (fun uid rs =>
                       exists r rest, rs = r :: rest
                         /\ req_url r
                            = base.base_url p1
                              +:+ "/home.php?mod=spacecp&ac=poke&op=send&uid="
                              +:+ uid)
                    selected_uids rss.
Proof.
  do 4 (split; [reflexivity|]).
  intros uid_list p1 Hget Hbig.
  destruct (poke_spec w success_text (Some 0) iconid kwargs p p1 uid_list Hget Hbig)
    as (sel & rss & os & p3 & Hlen & _ & _ & _ & Hsent & Hall & Hdraws & Hpoke).
  change (Z.to_nat (int_or (Some 0) discuz.POKE_DEFAULT_NUM)) with 10%nat in Hlen.
  rewrite Hlen in Hdraws.
  eexists sel, rss, _, p3. by repeat split.
Qed.

(** ** Signing in *)


(** ** The task runner *)

Section runner.
Context `{P : base.Provider} (w : world) (kwargs : gmap string pyval).

(** One record: the handler is invoked and its outcome is logged; the
    step itself never raises. *)
Lemma process_spec (provider_name : string) (provider_data : gmap string pyval)
    (s : base.state) :
  base.process w kwargs (provider_name, provider_data) s
  = (Ret tt,
     {| base.self :=
          (base.handler w provider_data provider_name kwargs (base.self s)).2;
        base.db := base.db s;
        base.log :=
          (base.log s
           ++ report provider_name
                (base.handler w provider_data provider_name kwargs (base.self s)).1)%list |}).
Proof.
  unfold base.process, base.logger, base.on_self, try_except, bind, modify, report.
  simpl.
  destruct (base.handler w provider_data provider_name kwargs (base.self s))
    as [[result|e] p']; simpl.
  - destruct (base.success result); simpl.
    + by rewrite <- app_assoc.
    + destruct (base.error result) as [err|]; simpl.
      * destruct (str_truthy err); unfold ret; simpl; by rewrite <- !app_assoc.
      * unfold ret. by rewrite <- app_assoc.
  - by rewrite <- app_assoc.
Qed.

(** The loop of [run] is the isolated batch. *)
Lemma for_each_process_spec (providers : list (string * gmap string pyval))
    (s : base.state) :
  base.for_each providers (base.process w kwargs) s
  = (Ret tt,
     {| base.self := (isolated_batch w kwargs providers (base.self s)).2;
        base.db := base.db s;
        base.log :=
          (base.log s
           ++ flat_map (fun no => report no.1 no.2)
                (isolated_batch w kwargs providers (base.self s)).1)%list |}).
Proof.
  revert s. induction providers as [|[name data] rest IH]; intros s.
  - simpl. unfold ret. rewrite app_nil_r. by destruct s.
  - cbn [base.for_each]. unfold bind at 1. rewrite process_spec, IH.
    cbn [base.self base.db base.log isolated_batch].
    destruct (base.handler w data name kwargs (base.self s)) as [o p1]. simpl.
    destruct (isolated_batch w kwargs rest p1) as [os p2]. simpl.
    by rewrite <- app_assoc.
Qed.





(** When both release calls return, [close] leaves no handle behind. *)
Lemma close_releases (s : base.state) :
  motor_close w = Ret tt ->
  session_close w = Ret tt ->
  exists s',
    base.close w s = (Ret tt, s') /\ released s' /\ base.log s' = base.log s.
Proof.
  intros Hm Hs.
  unfold base.close, base.on_db, base.on_self, db.close, base.close_session, released.
  run_monad. rewrite Hm, Hs.
  destruct (db._client (db.handle (base.db s))) eqn:Hc; simpl;
    destruct (base._session (base.self s)) eqn:Hsess; simpl;
    eexists; (split; [reflexivity|]); simpl; by rewrite ?Hc, ?Hsess.
Qed.

End runner.



(** ** The store connection string *)

(** C8.  When [MONGO_URL] is absent from the environment, or empty,
    constructing the store raises [ValueError]; this happens while the
    modules are imported, so the process ends with status 1 before [main]
    is entered: nothing is connected, queried or handled. *)
Theorem missing_mongo_url_is_fatal (environ : gmap string string) (w : world)
    (create_provider_instance : string -> outcome base.Provider)
    (provider : string) (username : option string) :
  environ !! "MONGO_URL" = None \/ environ !! "MONGO_URL" = Some "" ->
  db.__init__ environ = Raise (ValueError "Environment variable MONGO_URL is not set")
  /\ cli.script environ w create_provider_instance provider username
     = {| cli.exit_status := 1; cli.reached := None |}.
Proof.
  intros Hurl.
  assert (db.__init__ environ
          = Raise (ValueError "Environment variable MONGO_URL is not set")) as Hinit.
  { unfold db.__init__. by destruct Hurl as [-> | ->]. }
  split; [exact Hinit|]. unfold cli.script. by rewrite Hinit.
Qed.

(** * Concrete runs *)

(** A page asking to log in makes [request] raise; a page of a logged-in
    user is returned. *)
Lemma request_checks_logout_marker_witness :
  let url := "https://forum.example/home.php" in
  (base.fetch sample.logged_out url None "GET" no_kwargs sample.forum
   = (Ret {| text := Ret "please log in" |},
      (base.fetch sample.logged_out url None "GET" no_kwargs sample.forum).2)
   /\ discuz.request sample.logged_out url None "GET" no_kwargs sample.forum
      = (Raise (AuthenticationError "登录状态已失效，请重新登录"),
         (base.fetch sample.logged_out url None "GET" no_kwargs sample.forum).2))
  /\ (base.fetch sample.friendly url None "GET" no_kwargs sample.forum
      = (Ret {| text := Ret sample.logged_in |},
         (base.fetch sample.friendly url None "GET" no_kwargs sample.forum).2)
      /\ discuz.request sample.friendly url None "GET" no_kwargs sample.forum
         = (Ret sample.logged_in,
            (base.fetch sample.friendly url None "GET" no_kwargs sample.forum).2)).
Proof.
  intros url. split.
  - assert (base.fetch sample.logged_out url None "GET" no_kwargs sample.forum
            = (Ret {| text := Ret "please log in" |},
               (base.fetch sample.logged_out url None "GET" no_kwargs sample.forum).2))
      as Hfetch by (vm_compute; reflexivity).
    split; [exact Hfetch|].
    apply (proj1 (request_checks_logout_marker sample.logged_out url None "GET"
                    no_kwargs sample.forum _ _ "please log in" Hfetch eq_refl)).
    vm_compute; reflexivity.
  - assert (base.fetch sample.friendly url None "GET" no_kwargs sample.forum
            = (Ret {| text := Ret sample.logged_in |},
               (base.fetch sample.friendly url None "GET" no_kwargs sample.forum).2))
      as Hfetch by (vm_compute; reflexivity).
    split; [exact Hfetch|].
    apply (proj2 (request_checks_logout_marker sample.friendly url None "GET"
                    no_kwargs sample.forum _ _ sample.logged_in Hfetch eq_refl)).
    vm_compute; reflexivity.
Defined.



(** Two listed members: the sentinel; three listed members: 11 views. *)
Lemma population_guard_and_sample_sizes_witness :
  (discuz.get_users sample.lonely no_kwargs sample.forum
   = (Ret ["101"; "77"], (discuz.get_users sample.lonely no_kwargs sample.forum).2)
   /\ (length ["101"; "77"] <= 2)%nat
   /\ discuz.views sample.lonely no_kwargs sample.forum
      = (Ret "No users found", (discuz.get_users sample.lonely no_kwargs sample.forum).2)
   /\ discuz.poke sample.lonely discuz.success_text_default None None no_kwargs
        sample.forum
      = (Ret [], (discuz.get_users sample.lonely no_kwargs sample.forum).2))
  /\ (discuz.get_users sample.friendly no_kwargs sample.forum
      = (Ret ["101"; "102"; "103"],
         (discuz.get_users sample.friendly no_kwargs sample.forum).2)
      /\ (2 < length ["101"; "102"; "103"])%nat
      /\ exists (selected_uids : list string) o p3,
           discuz.views sample.friendly no_kwargs sample.forum = (o, p3)
           /\ length selected_uids = 11%nat).
Proof.
  split.
  - assert (discuz.get_users sample.lonely no_kwargs sample.forum
            = (Ret ["101"; "77"],
               (discuz.get_users sample.lonely no_kwargs sample.forum).2))
      as Hget by (vm_compute; reflexivity).
    assert (length ["101"; "77"] <= 2)%nat as Hsmall by (simpl; lia).
    split; [exact Hget|]. split; [exact Hsmall|].
    exact (proj1 (population_guard_and_sample_sizes sample.lonely
                    discuz.success_text_default None None no_kwargs sample.forum
                    _ _ Hget) Hsmall).
  - assert (discuz.get_users sample.friendly no_kwargs sample.forum
            = (Ret ["101"; "102"; "103"],
               (discuz.get_users sample.friendly no_kwargs sample.forum).2))
      as Hget by (vm_compute; reflexivity).
    assert (2 < length ["101"; "102"; "103"])%nat as Hbig by (simpl; lia).
    split; [exact Hget|]. split; [exact Hbig|].
    destruct (proj1 (proj2 (population_guard_and_sample_sizes sample.friendly
                              discuz.success_text_default None None no_kwargs
                              sample.forum _ _ Hget) Hbig))
      as (sel & rs & o & p3 & Hviews & Hlen & _).
    by exists sel, o, p3.
Defined.


(** C6, the claim as stated fails: the first input of the form carries the
    name [a] and the value [1], yet the extracted parameters bind [a] to
    [2]; the field with the value [1] is dropped. *)
Lemma extract_form_params_drops_duplicate :
  exists form _input,
    select_one sample.twice "#f" = Some form
    /\ select form "input" !! 0%nat = Some _input
    /\ attrs _input !! "name" = Some "a"
    /\ attrs _input !! "value" = Some "1"
    /\ discuz._extract_form_params sample.twice "#f" !! "a" = Some "2"
    /\ discuz._extract_form_params sample.twice "#f" !! "a" <> Some "1".
Proof.
  exists (sample.form "" [sample.input "a" "1"; sample.input "a" "2"]),
         (sample.input "a" "1").
  repeat split; try (vm_compute; reflexivity).
  vm_compute. discriminate.
Defined.

(** The sign form of the sample page: [formhash] comes from its first
    input. *)
Lemma extract_form_params_lookup_witness :
  discuz._extract_form_params (sample.page []) "#qiandao" !! "formhash" = Some "abc"
  /\ exists form i _input,
       select_one (sample.page []) "#qiandao" = Some form
       /\ select form "input" !! i = Some _input
       /\ attrs _input !! "name" = Some "formhash".
Proof.
  assert (discuz._extract_form_params (sample.page []) "#qiandao" !! "formhash"
          = Some "abc") as Hlookup by (vm_compute; reflexivity).
  split; [exact Hlookup|].
  destruct (proj1 (extract_form_params_lookup (sample.page []) "#qiandao"
                     "formhash" "abc") Hlookup)
    as (form & i & _input & Hform & Hi & Hname & _).
  by exists form, i, _input.
Defined.

(** A plain GET: the default User-Agent, no TLS verification, 30 as
    timeout; a call with data: POST. *)
Lemma fetch_defaults_witness :
  (exists r p',
     base.fetch sample.friendly "https://forum.example/" None "GET" no_kwargs
       sample.forum
     = (session_request sample.friendly (base.sent sample.forum) r, p')
     /\ req_headers r = <["User-Agent" := base.USER_AGENT]> ∅
     /\ req_method r = "GET"
     /\ req_kwargs r !! "ssl" = Some (VBool false)
     /\ req_timeout r = Some {| total := Some 30 |})
  /\ (exists r p',
        base.fetch sample.friendly "https://forum.example/"
          (Some (<["note" := VStr "hello"]> ∅)) "GET" no_kwargs sample.forum
        = (session_request sample.friendly (base.sent sample.forum) r, p')
        /\ req_method r = "POST").
Proof.
  split.
  - destruct (fetch_defaults sample.friendly "https://forum.example/" None "GET"
                no_kwargs sample.forum)
      as (r & p' & Hfetch & _ & _ & _ & Hua & _ & _ & Hget & Hssl & _ & Htimeout).
    exists r, p'. split; [exact Hfetch|].
    split; [apply Hua; intros k Hk; simpl in Hk; by rewrite dom_empty_L in Hk|].
    split; [by apply Hget|]. split; [by apply Hssl|]. by apply Htimeout.
  - destruct (fetch_defaults sample.friendly "https://forum.example/"
                (Some (<["note" := VStr "hello"]> ∅)) "GET" no_kwargs sample.forum)
      as (r & p' & Hfetch & _ & _ & _ & _ & _ & Hpost & _).
    exists r, p'. split; [exact Hfetch|]. apply Hpost. left. vm_compute; reflexivity.
Defined.

(** The empty environment: the process ends with status 1 at once. *)
Lemma missing_mongo_url_is_fatal_witness :
  ((∅ : gmap string string) !! "MONGO_URL" = None
   \/ (∅ : gmap string string) !! "MONGO_URL" = Some "")
  /\ cli.script ∅ sample.three_accounts (fun _ => Ret afraid.Afraid) "afraid" None
     = {| cli.exit_status := 1; cli.reached := None |}.
Proof.
  assert ((∅ : gmap string string) !! "MONGO_URL" = None
          \/ (∅ : gmap string string) !! "MONGO_URL" = Some "") as Henv
    by (left; reflexivity).
  split; [exact Henv|].
  exact (proj2 (missing_mongo_url_is_fatal ∅ sample.three_accounts
                  (fun _ => Ret afraid.Afraid) "afraid" None Henv)).
Defined.



(** [poke(poke_num=0)] on three listed members: 10 UIDs are drawn. *)
Lemma poke_zero_is_default_witness :
  discuz.get_users sample.friendly no_kwargs sample.forum
  = (Ret ["101"; "102"; "103"],
     (discuz.get_users sample.friendly no_kwargs sample.forum).2)
  /\ (2 < length ["101"; "102"; "103"])%nat
  /\ exists (selected_uids : list string) result p3,
       discuz.poke sample.friendly discuz.success_text_default (Some 0) None
         no_kwargs sample.forum
       = (Ret result, p3)
       /\ length selected_uids = 10%nat
       /\ base.draws p3 = 10%nat.
Proof.
  assert (discuz.get_users sample.friendly no_kwargs sample.forum
          = (Ret ["101"; "102"; "103"],
             (discuz.get_users sample.friendly no_kwargs sample.forum).2))
    as Hget by (vm_compute; reflexivity).
  assert (2 < length ["101"; "102"; "103"])%nat as Hbig by (simpl; lia).
  split; [exact Hget|]. split; [exact Hbig|].
  destruct (poke_zero_is_default sample.friendly discuz.success_text_default
              None None no_kwargs sample.forum)
    as (_ & _ & _ & _ & Hten).
  destruct (Hten _ _ Hget Hbig) as (sel & rss & result & p3 & Hpoke & Hlen & Hdraws & _).
  exists sel, result, p3. split; [exact Hpoke|]. split; [exact Hlen|].
  rewrite Hdraws. vm_compute; reflexivity.
Defined.

(** * Further properties *)

(** ** Relations kept by every step of a coroutine *)

Section preserved.
Context {S : Type} (R : S -> S -> Prop).
Hypothesis R_refl : forall s, R s s.
Hypothesis R_trans : forall a b c, R a b -> R b c -> R a c.

Lemma always_ret {A} (a : A) : always R (ret a).
Proof. intros s. apply R_refl. Qed.

Lemma always_raise {A} (e : exn) : always R (@raise S A e).
Proof. intros s. apply R_refl. Qed.

Lemma always_await {A} (o : outcome A) : always R (@await S A o).
Proof. intros s. apply R_refl. Qed.

Lemma always_get : always R (@get S).
Proof. intros s. apply R_refl. Qed.

Lemma always_modify (f : S -> S) : (forall s, R s (f s)) -> always R (modify f).
Proof. intros Hf s. apply Hf. Qed.

Lemma always_bind {A B} (m : M S A) (k : A -> M S B) :
  always R m -> (forall a, always R (k a)) -> always R (bind m k).
Proof.
  intros Hm Hk s. unfold bind. specialize (Hm s).
  destruct (m s) as [[a|e] s1]; simpl in *; [|done].
  eapply R_trans; [exact Hm | apply Hk].
Qed.

Lemma always_gather_return_exceptions {A} (tasks : list (M S A)) :
  Forall (always R) tasks -> always R (gather_return_exceptions tasks).
Proof.
  induction 1 as [|t tasks Ht _ IH]; intros s; simpl; [apply R_refl|].
  specialize (Ht s). destruct (t s) as [o s1]. simpl in Ht.
  specialize (IH s1). destruct (gather_return_exceptions tasks s1) as [[os|e] s2];
    simpl in *; by eapply R_trans.
Qed.

Lemma always_gather {A} (tasks : list (M S A)) :
  Forall (always R) tasks -> always R (gather tasks).
Proof.
  intros Htasks. unfold gather. apply always_bind.
  - by apply always_gather_return_exceptions.
  - intros os. destruct (first_raise os); [apply always_raise | apply always_ret].
Qed.

Lemma always_comprehension {A B} (xs : list A) (f : A -> M S B) :
  (forall x, always R (f x)) -> always R (discuz.comprehension xs f).
Proof.
  intros Hf. induction xs as [|x xs IH]; simpl; [apply always_ret|].
  apply always_bind; [apply Hf|]. intros y.
  apply always_bind; [exact IH|]. intros ys. apply always_ret.
Qed.

End preserved.

(** ** Relations kept by the engine *)

Section engine.
Context (w : world) (kwargs : fetch_kwargs) (R : base.provider -> base.provider -> Prop).
Hypothesis R_refl : forall p, R p p.
Hypothesis R_trans : forall a b c, R a b -> R b c -> R a c.
Hypothesis R_fetch :
  forall url data method, always R (base.fetch w url data method kwargs).
Hypothesis R_draw : forall p, R p (base.add_draw p).

Ltac step :=
  first [ apply (always_ret R R_refl)
        | apply (always_raise R R_refl)
        | apply (always_await R R_refl)
        | apply (always_get R R_refl)
        | apply R_fetch
        | apply (always_bind R R_trans); [ | intros ?] ].

Lemma always_request (url : string) (data : option (gmap string pyval))
    (method : string) :
  always R (discuz.request w url data method kwargs).
Proof.
  unfold discuz.request. step; [step|]. step; [step|].
  destruct (negb _); step.
Qed.

Lemma always_choice {A} (xs : list A) : always R (discuz.choice w xs).
Proof.
  unfold discuz.choice. step; [step|]. step; [by apply always_modify|].
  destruct (xs !! _); step.
Qed.

Lemma always_get_users : always R (discuz.get_users w kwargs).
Proof.
  unfold discuz.get_users. step; [step|]. step; [apply always_request|]. step.
Qed.

Lemma always_user_info : always R (discuz.user_info w kwargs).
Proof.
  unfold discuz.user_info. step; [step|]. step; [apply always_request|].
  destruct (select_one _ _); step.
Qed.

Lemma always_sign (sign_text form_name : string) :
  always R (discuz.sign w sign_text form_name kwargs).
Proof.
  unfold discuz.sign. step; [step|]. step; [apply always_request|].
  destruct (str_in _ _); [step|]. step; [step|]. step.
Qed.

Lemma always_views : always R (discuz.views w kwargs).
Proof.
  unfold discuz.views. step; [apply always_get_users|].
  destruct (_ <=? _); [step|]. step; [step|].
  step; [apply always_comprehension; try done; intros; apply always_choice|].
  step; [|step]. apply always_gather; try done.
  apply List.Forall_forall. intros t Ht.
  apply in_map_iff in Ht as (uid & <- & _). apply R_fetch.
Qed.

Lemma always_send_poke (uid : string) (iconid : Z) (success_text : string) :
  always R (discuz._send_poke w uid iconid success_text kwargs).
Proof.
  unfold discuz._send_poke. step; [step|]. step; [apply always_request|].
  step; [step|]. step; [step|]. step.
Qed.

Lemma always_poke (success_text : string) (poke_num iconid : option Z) :
  always R (discuz.poke w success_text poke_num iconid kwargs).
Proof.
  unfold discuz.poke. step; [apply always_get_users|].
  destruct (_ <=? _); [step|].
  step; [apply always_comprehension; try done; intros; apply always_choice|].
  step; [|step]. apply always_gather_return_exceptions; try done.
  apply List.Forall_forall. intros t Ht.
  apply in_map_iff in Ht as (uid & <- & _). apply always_send_poke.
Qed.

End engine.

(** ** The HTTP session is opened once and reused *)

Lemma reuses_refl (p : base.provider) : reuses p p.
Proof. split; [done|]. destruct (base._session p); auto. Qed.

Lemma reuses_trans (a b c : base.provider) : reuses a b -> reuses b c -> reuses a c.
Proof.
  unfold reuses. intros (Hc1 & H1) (Hc2 & H2). split; [congruence|].
  destruct (base._session a) as [ca|].
  - destruct H1 as (Hb & Ho). rewrite Hb in H2. destruct H2 as (-> & ->). auto.
  - destruct H1 as [(Hb & Ho) | (Hb & Ho)]; rewrite Hb in H2.
    + destruct H2 as [(-> & ->) | (-> & ->)]; rewrite Ho; auto.
    + destruct H2 as (-> & ->). rewrite Ho. auto.
Qed.

Lemma reuses_fetch (w : world) (kwargs : fetch_kwargs) (url : string)
    (data : option (gmap string pyval)) (method : string) :
  always reuses (base.fetch w url data method kwargs).
Proof.
  intros p. unfold base.fetch, base.session, base.session_request_on, reuses.
  run_monad. destruct (base._session p) eqn:Hs; simpl; rewrite ?Hs; auto.
Qed.

Lemma reuses_add_draw (p : base.provider) : reuses p (base.add_draw p).
Proof. split; [done|]. simpl. destruct (base._session p); auto. Qed.

Lemma reuses_add_line (l : string) (p : base.provider) : reuses p (base.add_line l p).
Proof. split; [done|]. simpl. destruct (base._session p); auto. Qed.

(** Every operation of the engine keeps the HTTP session of the provider:
    it closes none, keeps the one that is held, and opens one, numbered
    after those opened before, only when none is held. *)
Theorem engine_reuses_session (w : world) (kwargs : fetch_kwargs) :
  (forall url data method, always reuses (base.fetch w url data method kwargs))
  /\ (forall url data method, always reuses (discuz.request w url data method kwargs))
  /\ always reuses (discuz.get_users w kwargs)
  /\ always reuses (discuz.user_info w kwargs)
  /\ (forall sign_text form_name,
        always reuses (discuz.sign w sign_text form_name kwargs))
  /\ always reuses (discuz.views w kwargs)
  /\ (forall success_text poke_num iconid,
        always reuses (discuz.poke w success_text poke_num iconid kwargs)).
Proof.
  pose proof (reuses_fetch w kwargs) as Hfetch.
  split; [exact Hfetch|].
  split; [intros; by apply always_request; try apply reuses_refl; try apply reuses_trans|].
  split; [by apply always_get_users; try apply reuses_refl; try apply reuses_trans|].
  split; [by apply always_user_info; try apply reuses_refl; try apply reuses_trans|].
  split; [intros; by apply always_sign; try apply reuses_refl; try apply reuses_trans|].
  split; [apply always_views; try done;
          [apply reuses_refl | apply reuses_trans | apply reuses_add_draw]|].
  intros. apply always_poke; try done;
    [apply reuses_refl | apply reuses_trans | apply reuses_add_draw].
Qed.

(** ** The keyword arguments reach every request *)

Lemma extended_by_refl (Q : http_request -> Prop) (p : base.provider) :
  extended_by Q p p.
Proof. exists []. by rewrite app_nil_r. Qed.

Lemma extended_by_trans (Q : http_request -> Prop) (a b c : base.provider) :
  extended_by Q a b -> extended_by Q b c -> extended_by Q a c.
Proof.
  intros (rs1 & H1 & Q1) (rs2 & H2 & Q2). exists (rs1 ++ rs2)%list. split.
  - by rewrite H2, H1, app_assoc.
  - by apply Forall_app.
Qed.

Lemma lower_user_agent : lower "User-Agent" = "user-agent".
Proof. reflexivity. Qed.

Lemma carries_fetch (w : world) (kwargs : fetch_kwargs) (url : string)
    (data : option (gmap string pyval)) (method : string) :
  always (extended_by (carries kwargs)) (base.fetch w url data method kwargs).
Proof.
  intros p. unfold base.fetch, base.session, base.session_request_on. run_monad.
  set (hs := default ∅ (kw_headers kwargs)).
  eexists [_]. split.
  { destruct (base._session p); reflexivity. }
  constructor; [|constructor]. unfold carries. simpl. fold hs.
  split; [|split; [|split]].
  - intros k v Hk. destruct (base.has_user_agent hs) eqn:E; [done|].
    rewrite lookup_insert_ne; [done|]. intros <-.
    assert (base.has_user_agent hs = true) as Hua; [|congruence].
    apply has_user_agent_spec. exists "User-Agent". split; [|apply lower_user_agent].
    apply elem_of_dom. by exists v.
  - destruct (base.has_user_agent hs) eqn:E.
    + by apply has_user_agent_spec.
    + exists "User-Agent". split; [|apply lower_user_agent].
      apply elem_of_dom. rewrite lookup_insert_eq. by eexists.
  - intros k v Hk. destruct (kw_rest kwargs !! "ssl") eqn:E; [done|].
    rewrite lookup_insert_ne; [done|]. intros <-. congruence.
  - destruct (kw_rest kwargs !! "ssl") eqn:E; [by rewrite E|].
    rewrite lookup_insert_eq. by eexists.
Qed.

Lemma extended_by_add_draw (Q : http_request -> Prop) (p : base.provider) :
  extended_by Q p (base.add_draw p).
Proof. exists []. by rewrite app_nil_r. Qed.

(** Every request an operation of the engine sends holds the keyword
    arguments the operation was called with: each header of the caller
    (the cookie of the account among them), a user agent header, every
    other keyword, and a value for [ssl].  The requests sent before are
    kept as they are. *)
Theorem engine_requests_carry_kwargs (w : world) (kwargs : fetch_kwargs) :
  (forall url data method,
     always (extended_by (carries kwargs)) (discuz.request w url data method kwargs))
  /\ always (extended_by (carries kwargs)) (discuz.get_users w kwargs)
  /\ always (extended_by (carries kwargs)) (discuz.user_info w kwargs)
  /\ (forall sign_text form_name,
        always (extended_by (carries kwargs))
               (discuz.sign w sign_text form_name kwargs))
  /\ always (extended_by (carries kwargs)) (discuz.views w kwargs)
  /\ (forall success_text poke_num iconid,
        always (extended_by (carries kwargs))
               (discuz.poke w success_text poke_num iconid kwargs)).
Proof.
  pose proof (carries_fetch w kwargs) as Hfetch.
  pose proof (extended_by_refl (carries kwargs)) as Hrefl.
  pose proof (extended_by_trans (carries kwargs)) as Htrans.
  pose proof (extended_by_add_draw (carries kwargs)) as Hdraw.
  split; [intros; by apply always_request|].
  split; [by apply always_get_users|].
  split; [by apply always_user_info|].
  split; [intros; by apply always_sign|].
  split; [by apply always_views|].
  intros. by apply always_poke.
Qed.

(** ** The store handle *)

(** Closing the store: without a client nothing is called; with a client
    whose [close()] returns, the client and the collection are dropped and
    a second [close] calls nothing more; with a client whose [close()]
    raises, the exception is raised and the handle is kept as it was. *)
Theorem db_close_cases (w : world) (s : db.store) :
  (db._client (db.handle s) = None -> db.close w s = (Ret tt, s))
  /\ (forall c, db._client (db.handle s) = Some c ->
        motor_close w = Ret tt ->
        exists s1,
          db.close w s = (Ret tt, s1)
          /\ db._client (db.handle s1) = None
          /\ db.collection (db.handle s1) = None
          /\ db.db_url (db.handle s1) = db.db_url (db.handle s)
          /\ db.driver_calls s1 = (db.driver_calls s ++ [db.Client_close])%list
          /\ db.close w s1 = (Ret tt, s1))
  /\ (forall c e, db._client (db.handle s) = Some c ->
        motor_close w = Raise e ->
        exists s1,
          db.close w s = (Raise e, s1)
          /\ db.handle s1 = db.handle s
          /\ db.driver_calls s1 = (db.driver_calls s ++ [db.Client_close])%list).
Proof.
  unfold db.close, db.called, db.set_handle. run_monad.
  split; [|split].
  - intros Hc. by rewrite Hc.
  - intros c Hc Hm. rewrite Hc, Hm. eexists. split; [reflexivity|]. simpl.
    by repeat split.
  - intros c e Hc Hm. rewrite Hc, Hm. eexists. split; [reflexivity|]. simpl.
    by repeat split.
Qed.

Lemma get_provider_on_collection (w : world) (provider_type name : pyval)
    (s : db.store) (c : db.AsyncIOMotorCollection) :
  db.collection (db.handle s) = Some c ->
  exists query,
    query !! "status" = Some (VInt 1)
    /\ query !! "provider_type" = Some provider_type
    /\ query !! "name" = (if truthy name then Some name else None)
    /\ (forall k, is_Some (query !! k) ->
          k = "status" \/ k = "provider_type" \/ k = "name")
    /\ db.get_provider w provider_type name s
       = (match find_sorted w query with
          | Ret docs => Ret (map (fun doc => (doc_name doc, doc_data doc)) docs)
          | Raise e => Raise e
          end,
          {| db.handle := db.handle s;
             db.driver_calls := (db.driver_calls s ++ [db.Find_sorted query])%list |}).
Proof.
  intros Hc. unfold db.get_provider, db.called. run_monad. rewrite Hc. simpl.
  set (q0 := <["status" := VInt db.STATUS_ENABLED]>
               (<["provider_type" := provider_type]> (∅ : gmap string pyval))).
  exists (if truthy name then <["name" := name]> q0 else q0).
  split; [|split; [|split; [|split]]].
  - destruct (truthy name); by simplify_map_eq.
  - destruct (truthy name); by simplify_map_eq.
  - destruct (truthy name); by simplify_map_eq.
  - intros k [v Hk]. subst q0. destruct (truthy name);
      repeat (apply lookup_insert_Some in Hk as [[<- _]|[_ Hk]]; [auto|]);
      by rewrite lookup_empty in Hk.
  - by destruct (find_sorted w _).
Qed.

(** Querying the store.  Without a collection [get_provider] raises
    [AttributeError] and calls nothing.  With one it issues one query: the
    status is always 1 (enabled), the type is the one given, the name is
    asked for only when it is truthy, so [None] and the empty string both
    ask for every name; nothing else is asked.  The result lists the name
    and the data of the documents in the order the store yields them. *)
Theorem db_get_provider_query (w : world) (provider_type name : pyval) (s : db.store) :
  (db.collection (db.handle s) = None ->
   db.get_provider w provider_type name s
   = (Raise (AttributeError "'NoneType' object has no attribute 'find'"), s))
  /\ (forall c, db.collection (db.handle s) = Some c ->
        exists query,
          query !! "status" = Some (VInt 1)
          /\ query !! "provider_type" = Some provider_type
          /\ query !! "name" = (if truthy name then Some name else None)
          /\ (forall k, is_Some (query !! k) ->
                k = "status" \/ k = "provider_type" \/ k = "name")
          /\ db.get_provider w provider_type name s
             = (match find_sorted w query with
                | Ret docs => Ret (map (fun doc => (doc_name doc, doc_data doc)) docs)
                | Raise e => Raise e
                end,
                {| db.handle := db.handle s;
                   db.driver_calls :=
                     (db.driver_calls s ++ [db.Find_sorted query])%list |})).
Proof.
  split.
  - intros Hc. unfold db.get_provider. run_monad. by rewrite Hc.
  - intros c Hc. by apply (get_provider_on_collection w provider_type name s c).
Qed.

(** ** Releasing, when the store does not let go *)

(** When closing the store client raises, [close] raises that exception
    and stops there: the provider is left as it was, so a session that is
    held stays held and [close()] is not awaited on it. *)
Theorem close_stops_at_store_failure (w : world) (s : base.state)
    (c : db.AsyncIOMotorClient) (e : exn) :
  db._client (db.handle (base.db s)) = Some c ->
  motor_close w = Raise e ->
  exists s',
    base.close w s = (Raise e, s')
    /\ base.self s' = base.self s
    /\ base.log s' = base.log s
    /\ db.handle (base.db s') = db.handle (base.db s).
Proof.
  intros Hc Hm.
  unfold base.close, base.on_db, base.on_self, db.close, db.called. run_monad.
  rewrite Hc, Hm. simpl. eexists. by repeat split.
Qed.

(** ** [run] without a batch *)

Section setup.
Context `{P : base.Provider} (w : world) (kwargs : gmap string pyval).

Lemma connect_frame (s : base.state) :
  base.self (base.connect w s).2 = base.self s
  /\ base.log (base.connect w s).2 = base.log s
  /\ ((base.connect w s).1 = Ret tt ->
      is_Some (db.collection (db.handle (base.db (base.connect w s).2)))).
Proof.
  unfold base.connect, base.on_db, db.connect, db.set_handle, db.called. run_monad.
  destruct (db.collection (db.handle (base.db s))) eqn:Hc; simpl.
  - repeat split. by rewrite Hc.
  - destruct (create_index w); simpl; repeat split; by eexists.
Qed.

Lemma get_provider_frame (provider_type name : pyval) (s : base.state) :
  base.self (base.get_provider w provider_type name s).2 = base.self s
  /\ base.log (base.get_provider w provider_type name s).2 = base.log s.
Proof.
  unfold base.get_provider, base.on_db.
  by destruct (db.get_provider w _ name (base.db s)).
Qed.

(** [close] sends nothing and logs nothing. *)
Lemma close_frame (s : base.state) :
  base.sent (base.self (base.close w s).2) = base.sent (base.self s)
  /\ base.lines (base.self (base.close w s).2) = base.lines (base.self s)
  /\ base.log (base.close w s).2 = base.log s.
Proof.
  unfold base.close, base.on_db, base.on_self, base.close_session. run_monad.
  destruct (db.close w (base.db s)) as [[[]|e] d]; simpl; [|done].
  destruct (base._session (base.self s)); simpl; [|done].
  by destruct (session_close w) as [[]|e].
Qed.

(** What is left of [run] once its [try] block has ended in [s3] with one
    more log record [r] and the release calls return. *)
Lemma run_after_try (s s3 : base.state) (o : outcome unit) :
  motor_close w = Ret tt ->
  session_close w = Ret tt ->
  try_except (base.run_try w kwargs) (fun e => base.logger (base.Error_in_run e)) s
  = (o, s3) ->
  exists s',
    base.run w kwargs s = (o, s')
    /\ base.log s' = base.log s3
    /\ base.sent (base.self s') = base.sent (base.self s3)
    /\ base.lines (base.self s') = base.lines (base.self s3)
    /\ released s'.
Proof.
  intros Hm Hs Htry. unfold base.run, try_finally. rewrite Htry.
  destruct (close_releases w s3 Hm Hs) as (s' & Hclose & Hrel & Hlog).
  pose proof (close_frame s3) as (Hsent & Hlines & _).
  rewrite Hclose in *. simpl in *. by exists s'.
Qed.

End setup.

(** When connecting or querying raises, [run] invokes no handler: it logs
    the exception as one error record, sends no request, releases the
    handles and returns normally. *)
Theorem run_setup_failure `{P : base.Provider} (w : world)
    (kwargs : gmap string pyval) (s : base.state) (e : exn) :
  motor_close w = Ret tt ->
  session_close w = Ret tt ->
  (base.connect w s).1 = Raise e
  \/ (exists s1,
        base.connect w s = (Ret tt, s1)
        /\ (base.get_provider w (run_provider_type kwargs) (run_name kwargs) s1).1
           = Raise e) ->
  exists s',
    base.run w kwargs s = (Ret tt, s')
    /\ base.log s' = (base.log s ++ [base.Error_in_run e])%list
    /\ base.sent (base.self s') = base.sent (base.self s)
    /\ base.lines (base.self s') = base.lines (base.self s)
    /\ released s'.
Proof.
  intros Hm Hs Hfail.
  assert (exists s3,
            try_except (base.run_try w kwargs)
                       (fun e => base.logger (base.Error_in_run e)) s
            = (Ret tt, s3)
            /\ base.log s3 = (base.log s ++ [base.Error_in_run e])%list
            /\ base.self s3 = base.self s) as (s3 & Htry & Hlog & Hself).
  { unfold try_except, base.run_try. unfold bind at 1.
    pose proof (connect_frame w s) as (Cself & Clog & _).
    destruct Hfail as [Hc | (s1 & Hc & Hg)].
    - destruct (base.connect w s) as [o s1]. simpl in *. subst o.
      unfold base.logger, modify. eexists. split; [reflexivity|]. simpl.
      by rewrite Clog, Cself.
    - rewrite Hc in *. simpl in *. unfold run_provider_type, run_name in Hg.
      unfold bind at 1.
      pose proof (get_provider_frame w (default (VStr base.class_name)
                                           (kwargs !! "provider_type"))
                    (default VNone (kwargs !! "name")) s1) as (Gself & Glog).
      destruct (base.get_provider w _ _ s1) as [o s2]. simpl in *. subst o.
      unfold base.logger, modify. eexists. split; [reflexivity|]. simpl.
      by rewrite Glog, Gself, Clog, Cself. }
  destruct (run_after_try w kwargs s s3 (Ret tt) Hm Hs Htry)
    as (s' & Hrun & Hlog' & Hsent & Hlines & Hrel).
  exists s'. rewrite Hlog', Hsent, Hlines, Hlog, Hself. do 4 (split; [done|]). exact Hrel.
Qed.

(** When the store yields no record, [run] invokes no handler: it logs one
    warning naming the provider type it was given, sends no request,
    releases the handles and returns normally. *)
Theorem run_empty_batch `{P : base.Provider} (w : world)
    (kwargs : gmap string pyval) (s s1 s2 : base.state) :
  motor_close w = Ret tt ->
  session_close w = Ret tt ->
  base.connect w s = (Ret tt, s1) ->
  base.get_provider w (run_provider_type kwargs) (run_name kwargs) s1 = (Ret [], s2) ->
  exists s',
    base.run w kwargs s = (Ret tt, s')
    /\ base.log s'
       = (base.log s ++ [base.Warning_no_providers (run_provider_type kwargs)])%list
    /\ base.sent (base.self s') = base.sent (base.self s)
    /\ base.lines (base.self s') = base.lines (base.self s)
    /\ released s'.
Proof.
  intros Hm Hs Hc Hg.
  pose proof (connect_frame w s) as (Cself & Clog & _). rewrite Hc in Cself, Clog.
  pose proof (get_provider_frame w (run_provider_type kwargs) (run_name kwargs) s1)
    as (Gself & Glog). rewrite Hg in Gself, Glog. simpl in *.
  assert (try_except (base.run_try w kwargs)
                     (fun e => base.logger (base.Error_in_run e)) s
          = (Ret tt,
             {| base.self := base.self s2; base.db := base.db s2;
                base.log := (base.log s2
                             ++ [base.Warning_no_providers (run_provider_type kwargs)])%list |}))
    as Htry.
  { unfold try_except, base.run_try. unfold bind at 1. rewrite Hc.
    unfold run_provider_type, run_name in Hg. unfold bind at 1. by rewrite Hg. }
  destruct (run_after_try w kwargs s _ (Ret tt) Hm Hs Htry)
    as (s' & Hrun & Hlog' & Hsent & Hlines & Hrel).
  exists s'. rewrite Hlog', Hsent, Hlines. simpl.
  rewrite Glog, Gself, Clog, Cself. do 4 (split; [done|]). exact Hrel.
Qed.

(** ** What [run] asks the store *)

Lemma run_try_query `{P : base.Provider} (w : world) (kwargs : gmap string pyval)
    (s s1 : base.state) :
  base.connect w s = (Ret tt, s1) ->
  exists query,
    db.driver_calls (base.db (base.run_try w kwargs s).2)
    = (db.driver_calls (base.db s1) ++ [db.Find_sorted query])%list
    /\ query !! "status" = Some (VInt 1)
    /\ query !! "provider_type"
       = Some (match kwargs !! "provider_type" with
               | Some v => if truthy v then v else VStr base.class_name
               | None => VStr base.class_name
               end)
    /\ query !! "name"
       = match kwargs !! "name" with
         | Some v => if truthy v then Some v else None
         | None => None
         end.
Proof.
  intros Hc.
  pose proof (connect_frame w s) as (_ & _ & Hcoll). rewrite Hc in Hcoll.
  destruct (Hcoll eq_refl) as (c & Hsome). simpl in Hsome.
  set (pt := default (VStr base.class_name) (kwargs !! "provider_type")).
  set (name := default VNone (kwargs !! "name")).
  destruct (get_provider_on_collection w
              (if truthy pt then pt else VStr base.class_name) name (base.db s1) c Hsome)
    as (query & Hstatus & Htype & Hname & _ & Hget).
  exists query. split; [|split; [exact Hstatus|split]].
  - unfold base.run_try. unfold bind at 1. rewrite Hc. fold pt. fold name.
    unfold bind at 1. unfold base.get_provider, base.on_db at 1. rewrite Hget.
    destruct (find_sorted w query) as [docs|e]; simpl; [|done].
    destruct (map _ docs) as [|r rs] eqn:E; [done|].
    by rewrite for_each_process_spec.
  - rewrite Htype. subst pt.
    destruct (kwargs !! "provider_type") as [v|]; cbv [from_option id];
      by destruct (truthy _).
  - rewrite Hname. subst name. destruct (kwargs !! "name") as [v|]; simpl; done.
Qed.

(** Once connected, [run] asks the store exactly once, whatever happens
    next: for enabled records, of the provider type among its keyword
    arguments, or of the class name of the provider when that argument is
    missing or falsy, and of the name among its keyword arguments when
    that is truthy. *)
Theorem run_query `{P : base.Provider} (w : world) (kwargs : gmap string pyval)
    (s s1 : base.state) :
  base.connect w s = (Ret tt, s1) ->
  exists query,
    db.driver_calls (base.db (base.run_try w kwargs s).2)
    = (db.driver_calls (base.db s1) ++ [db.Find_sorted query])%list
    /\ query !! "status" = Some (VInt 1)
    /\ query !! "provider_type"
       = Some (match kwargs !! "provider_type" with
               | Some v => if truthy v then v else VStr base.class_name
               | None => VStr base.class_name
               end)
    /\ query !! "name"
       = match kwargs !! "name" with
         | Some v => if truthy v then Some v else None
         | None => None
         end.
Proof. apply run_try_query. Qed.

(** ** The command line *)


(** The driver calls made before [close] are kept by it. *)
Lemma close_keeps_driver_calls (w : world) (s : base.state) :
  exists more,
    db.driver_calls (base.db (base.close w s).2)
    = (db.driver_calls (base.db s) ++ more)%list.
Proof.
  unfold base.close, base.on_db, base.on_self, db.close, db.called, base.close_session.
  run_monad.
  destruct (db._client (db.handle (base.db s))); simpl.
  - destruct (motor_close w) as [[]|e]; simpl; [|by eexists].
    destruct (base._session (base.self s)); simpl; [|by eexists].
    destruct (session_close w) as [[]|e]; simpl; by eexists.
  - exists []. rewrite app_nil_r.
    destruct (base._session (base.self s)); simpl; [|done].
    by destruct (session_close w) as [[]|e].
Qed.


(** What the command line asks the store: once connected, enabled records
    whose type is the provider name given on the command line (the module
    name, not the class name of the provider), and whose name is the user
    name given, when one is given and is not empty. *)
Theorem cli_query (w : world)
    (create_provider_instance : string -> outcome base.Provider)
    (provider : string) (username : option string) (s s1 : base.state)
    (instance : base.Provider) :
  create_provider_instance provider = Ret instance ->
  provider <> "" ->
  base.connect w {| base.self := base.self s; base.db := base.db s;
                    base.log := (base.log s ++ [base.Info_starting provider])%list |}
  = (Ret tt, s1) ->
  exists query s',
    cli.reached (cli.main w create_provider_instance provider username s) = Some s'
    /\ db.Find_sorted query ∈ db.driver_calls (base.db s')
    /\ query !! "status" = Some (VInt 1)
    /\ query !! "provider_type" = Some (VStr provider)
    /\ query !! "name"
       = match username with
         | Some u => if str_truthy u then Some (VStr u) else None
         | None => None
         end.
Proof.
  intros Hi Hne Hc.
  set (kwargs := (<["name" := match username with Some u => VStr u | None => VNone end]>
                    (<["provider_type" := VStr provider]> ∅) : gmap string pyval)).
  set (s0 := {| base.self := base.self s; base.db := base.db s;
                base.log := (base.log s ++ [base.Info_starting provider])%list |}) in *.
  destruct (@run_try_query instance w kwargs s0 s1 Hc)
    as (query & Hcalls & Hstatus & Htype & Hname).
  assert (exists s2 o, @base.run instance w kwargs s0 = (o, s2)
                       /\ db.Find_sorted query ∈ db.driver_calls (base.db s2))
    as (s2 & o & Hrun & Hin).
  { unfold base.run, try_finally, try_except.
    destruct (@base.run_try instance w kwargs s0) as [[[]|e] s3] eqn:Htry; simpl in Hcalls.
    - destruct (close_keeps_driver_calls w s3) as (more & Hmore).
      destruct (base.close w s3) as [[[]|e] s4]; simpl in Hmore;
        eexists _, _; (split; [reflexivity|]); rewrite Hmore, Hcalls;
        rewrite !elem_of_app, list_elem_of_singleton; auto.
    - unfold base.logger, modify.
      set (s3' := {| base.self := base.self s3; base.db := base.db s3;
                     base.log := (base.log s3 ++ [base.Error_in_run e])%list |}).
      destruct (close_keeps_driver_calls w s3') as (more & Hmore).
      destruct (base.close w s3') as [[[]|e'] s4]; simpl in Hmore;
        eexists _, _; (split; [reflexivity|]); rewrite Hmore; simpl; rewrite Hcalls;
        rewrite !elem_of_app, list_elem_of_singleton; auto. }
  assert (exists s', cli.reached (cli.main w create_provider_instance provider username s)
                     = Some s' /\ base.db s' = base.db s2) as (s' & Hreached & Hdb).
  { unfold cli.main, cli.run_provider.
    unfold bind at 1. unfold base.logger at 1, modify at 1.
    unfold bind at 1, await. rewrite Hi. fold kwargs. fold s0.
    unfold bind at 1. rewrite Hrun.
    destruct o as [[]|e]; unfold base.logger, modify; simpl; by eexists. }
  exists query, s'. split; [exact Hreached|]. rewrite Hdb. split; [exact Hin|].
  split; [exact Hstatus|]. split.
  - rewrite Htype. subst kwargs. simplify_map_eq. simpl.
    destruct (String.eqb_spec provider ""); [done|reflexivity].
  - rewrite Hname. subst kwargs. simplify_map_eq. by destruct username.
Qed.

(** ** One request, three ways to end *)

(** [request] sends exactly one request, to the given address and with the
    given data, and never a second one.  An exception of the transport or
    of reading the body is passed on as it is; [AuthenticationError] is
    raised only for a body that was received and lacks the logout marker;
    otherwise the body is returned. *)
Theorem request_outcomes (w : world) (url : string) (data : option (gmap string pyval))
    (method : string) (kwargs : fetch_kwargs) (p : base.provider) :
  exists r p',
    req_url r = url
    /\ req_data r = data
    /\ sends p p' [r]
    /\ discuz.request w url data method kwargs p
       = (match session_request w (base.sent p) r with
          | Raise e => Raise e
          | Ret response =>
              match text response with
              | Raise e => Raise e
              | Ret body =>
                  if str_in "action=logout" body then Ret body
                  else Raise (AuthenticationError "登录状态已失效，请重新登录")
              end
          end, p').
Proof.
  destruct (fetch_effect w url data method kwargs) as (r & Hu & Hd & _ & Hf).
  destruct (Hf p) as (p' & Hfetch & Hs).
  exists r, p'. do 3 (split; [done|]).
  unfold discuz.request, bind, await. rewrite Hfetch.
  destruct (session_request w (base.sent p) r) as [response|e]; [|done].
  destruct (text response) as [body|e]; [|done].
  by destruct (str_in "action=logout" body).
Qed.

(** ** The UID pattern *)

Lemma digits_spec (s : string) :
  exists post,
    s = discuz.digits s +:+ post
    /\ numeric (discuz.digits s) = true
    /\ match post with
       | String a _ => discuz.is_digit a = false
       | EmptyString => True
       end.
Proof.
  induction s as [|a s (post & Hs & Hn & Hp)]; simpl.
  - by exists "".
  - destruct (discuz.is_digit a) eqn:E; simpl.
    + exists post. rewrite E, Hn. split; [|by split].
      change (String a s = String a (discuz.digits s +:+ post)). congruence.
    + by exists (String a s).
Qed.

Lemma uid_match_at_spec (s d : string) :
  discuz.uid_match_at s = Some d ->
  exists sep post,
    s = "uid" +:+ String sep (d +:+ post)
    /\ (sep = "="%char \/ sep = "-"%char)
    /\ d <> ""
    /\ numeric d = true
    /\ match post with
       | String a _ => discuz.is_digit a = false
       | EmptyString => True
       end.
Proof.
  unfold discuz.uid_match_at.
  destruct s as [|c1 [|c2 [|c3 [|sep rest]]]]; try done;
    try (destruct c1 as [[] [] [] [] [] [] [] []]; done);
    try (destruct c1 as [[] [] [] [] [] [] [] []]; try done;
         destruct c2 as [[] [] [] [] [] [] [] []]; done);
    try (destruct c1 as [[] [] [] [] [] [] [] []]; try done;
         destruct c2 as [[] [] [] [] [] [] [] []]; try done;
         destruct c3 as [[] [] [] [] [] [] [] []]; done).
  destruct c1 as [[] [] [] [] [] [] [] []]; try done.
  destruct c2 as [[] [] [] [] [] [] [] []]; try done.
  destruct c3 as [[] [] [] [] [] [] [] []]; try done.
  destruct (Ascii.eqb sep "=" || Ascii.eqb sep "-")%bool eqn:Hsep; [|done].
  destruct (digits_spec rest) as (post & Hrest & Hnum & Hpost).
  destruct (discuz.digits rest) as [|a ds] eqn:Hd; [done|].
  intros [= <-]. exists sep, post. split; [by rewrite <- Hrest|].
  split; [|done].
  apply orb_true_iff in Hsep as [H|H]; apply Ascii.eqb_eq in H; auto.
Qed.

Lemma uid_search_some (s d : string) :
  discuz.UID_PATTERN_search s = Some d ->
  exists pre sep post,
    s = pre +:+ "uid" +:+ String sep (d +:+ post)
    /\ (sep = "="%char \/ sep = "-"%char)
    /\ d <> ""
    /\ numeric d = true
    /\ match post with
       | String a _ => discuz.is_digit a = false
       | EmptyString => True
       end.
Proof.
  induction s as [|c s IH]; intros Hd.
  - done.
  - cbn [discuz.UID_PATTERN_search] in Hd.
    destruct (discuz.uid_match_at (String c s)) as [d'|] eqn:Hm.
    + injection Hd as ->. apply uid_match_at_spec in Hm
        as (sep & post & Hs & Hsep & Hne & Hnum & Hpost).
      by exists "", sep, post.
    + destruct (IH Hd) as (pre & sep & post & Hs & H).
      exists (String c pre), sep, post. split; [|done].
      change (String c s = String c (pre +:+ "uid" +:+ String sep (d +:+ post))).
      congruence.
Qed.

Lemma uid_search_none (s : string) :
  discuz.UID_PATTERN_search s = None ->
  forall pre sep a post,
    s = pre +:+ "uid" +:+ String sep (String a post) ->
    sep = "="%char \/ sep = "-"%char ->
    discuz.is_digit a = false.
Proof.
  induction s as [|c s IH]; intros Hnone pre sep a post Hs Hsep.
  - destruct pre; discriminate.
  - cbn [discuz.UID_PATTERN_search] in Hnone.
    destruct (discuz.uid_match_at (String c s)) as [d'|] eqn:Hm; [done|].
    destruct pre as [|c' pre].
    + destruct (discuz.is_digit a) eqn:E; [exfalso|done].
      simpl in Hs. rewrite Hs in Hm.
      destruct Hsep as [-> | ->]; simpl in Hm; by rewrite E in Hm.
    + injection Hs as _ Hs. by apply (IH Hnone pre sep a post).
Qed.

(** [UID_PATTERN.search]: a result is a non-empty string of digits that
    follows [uid=] or [uid-] in the link and is not followed by a digit;
    there is no result only when no [uid=] or [uid-] of the link is
    followed by a digit. *)
Theorem uid_pattern_search_spec (s : string) :
  (forall d, discuz.UID_PATTERN_search s = Some d ->
     exists pre sep post,
       s = pre +:+ "uid" +:+ String sep (d +:+ post)
       /\ (sep = "="%char \/ sep = "-"%char)
       /\ d <> ""
       /\ numeric d = true
       /\ match post with
          | String a _ => discuz.is_digit a = false
          | EmptyString => True
          end)
  /\ (discuz.UID_PATTERN_search s = None ->
      forall pre sep a post,
        s = pre +:+ "uid" +:+ String sep (String a post) ->
        sep = "="%char \/ sep = "-"%char ->
        discuz.is_digit a = false).
Proof.
  split; [intros d; apply uid_search_some | apply uid_search_none].
Qed.

Lemma omap_length_le {A B} (f : A -> option B) (l : list A) :
  (length (omap f l) <= length l)%nat.
Proof.
  induction l as [|x l IH]; [done|]. cbn [omap list_omap].
  destruct (f x); simpl; lia.
Qed.

(** The scan yields numeric UIDs only: each is a non-empty string of
    digits, one at most for each listed element, in page order. *)
Theorem get_users_numeric (w : world) (kwargs : fetch_kwargs)
    (p p1 : base.provider) (uid_list : list string) :
  discuz.get_users w kwargs p = (Ret uid_list, p1) ->
  Forall (fun uid => uid <> "" /\ numeric uid = true) uid_list
  /\ exists html,
       uid_list = omap discuz.element_uid (select (BeautifulSoup w html) "ul.buddy li.bbda")
       /\ (length uid_list
           <= length (select (BeautifulSoup w html) "ul.buddy li.bbda"))%nat.
Proof.
  unfold discuz.get_users. unfold bind at 1, get at 1. unfold bind at 1.
  destruct (discuz.request w _ None "GET" kwargs p) as [[html|e] p'']; [|done].
  unfold ret. intros [= <- <-]. split.
  - apply Forall_forall. intros uid Hin.
    apply list_elem_of_omap in Hin as (element & _ & Huid).
    unfold discuz.element_uid in Huid.
    destruct (select_one element "div.avt a") as [link_tag|]; [|done].
    destruct (str_truthy _); [|done].
    destruct (uid_search_some _ uid Huid)
      as (pre & sep & post & _ & _ & Hne & Hnum & _).
    done.
  - exists html. split; [done|]. apply omap_length_le.
Qed.

(** ** Profile views *)




(** ** What is posted *)

Lemma sign_post (w : world) (sign_text form_name : string) (kwargs : fetch_kwargs)
    (p p1 : base.provider) (result : string) :
  discuz.request w (base.base_url p +:+ "/plugin.php?id=dsu_paulsign:sign")
    None "GET" kwargs p
  = (Ret result, p1) ->
  str_in sign_text result = false ->
  exists post p2,
    sends p1 p2 [post]
    /\ req_method post = "POST"
    /\ req_url post
       = base.base_url p +:+ "/"
         +:+ strip "/"
               match select_one (BeautifulSoup w result) form_name with
               | Some form => default "" (attrs form !! "action")
               | None => ""
               end
         +:+ "&inajax=1"
    /\ req_data post
       = Some (<["todaysay" := VStr "hello"]>
                 (VStr <$> discuz._extract_form_params (BeautifulSoup w result) form_name))
    /\ discuz.sign w sign_text form_name kwargs p
       = (match session_request w (base.sent p1) post with
          | Ret response => text response
          | Raise e => Raise e
          end, p2).
Proof.
  intros Hreq Hin.
  set (soup := BeautifulSoup w result).
  set (action := base.base_url p +:+ "/" +:+ strip "/" _ +:+ "&inajax=1").
  set (params := <["todaysay" := VStr "hello"]> _).
  destruct (fetch_effect w action (Some params) "GET" kwargs)
    as (post & Hu & Hd & Hm & Hf).
  destruct (Hf p1) as (p2 & Hfetch & Hs).
  exists post, p2. split; [done|]. split; [apply Hm, dict_truthy_insert|].
  split; [done|]. split; [done|].
  unfold discuz.sign. unfold bind at 1, get at 1.
  unfold bind at 1. rewrite Hreq, Hin.
  fold soup. fold params. fold action.
  unfold bind, await. rewrite Hfetch.
  by destruct (session_request w (base.sent p1) post).
Qed.

Lemma send_poke_post (w : world) (uid : string) (iconid : Z) (success_text : string)
    (kwargs : fetch_kwargs) (p p1 : base.provider) (page : string) :
  discuz.request w
    (base.base_url p +:+ "/home.php?mod=spacecp&ac=poke&op=send&uid=" +:+ uid)
    None "GET" kwargs p
  = (Ret page, p1) ->
  exists post p2,
    sends p1 p2 [post]
    /\ req_method post = "POST"
    /\ req_url post
       = (base.base_url p +:+ "/home.php?mod=spacecp&ac=poke&op=send&uid=" +:+ uid)
         +:+ "&inajax=1"
    /\ req_data post
       = Some (<["note" := VStr "hello"]>
                 (<["iconid" := VInt iconid]>
                    (VStr <$> discuz._extract_form_params (BeautifulSoup w page)
                                "#ct form")))
    /\ discuz._send_poke w uid iconid success_text kwargs p
       = (match session_request w (base.sent p1) post with
          | Ret response =>
              match text response with
              | Ret response_text => Ret (str_in success_text response_text)
              | Raise e => Raise e
              end
          | Raise e => Raise e
          end, p2).
Proof.
  intros Hreq.
  set (poke_url := base.base_url p +:+ _ +:+ uid) in *.
  set (params := <["note" := VStr "hello"]> _).
  destruct (fetch_effect w (poke_url +:+ "&inajax=1") (Some params) "GET" kwargs)
    as (post & Hu & Hd & Hm & Hf).
  destruct (Hf p1) as (p2 & Hfetch & Hs).
  exists post, p2. split; [done|]. split; [apply Hm, dict_truthy_insert|].
  split; [done|]. split; [done|].
  unfold discuz._send_poke. unfold bind at 1, get at 1.
  fold poke_url. unfold bind at 1. rewrite Hreq.
  fold params. unfold bind at 1. rewrite Hfetch.
  destruct (session_request w (base.sent p1) post) as [response|e]; [|done].
  unfold bind, await, ret. by destruct (text response).
Qed.

(** The form fields go back as they were read.  The parameters [sign]
    posts are the extracted fields of the sign form, each with its value
    as a string, except [todaysay], which is [hello] whatever the form
    holds; those a poke posts are the extracted fields of the poke form
    except [iconid], the icon number given, and [note], which is [hello].
    Nothing else is posted. *)
Theorem posts_echo_form_fields (w : world) (kwargs : fetch_kwargs) (p p1 : base.provider)
    (body : string) :
  (forall sign_text form_name,
     discuz.request w (base.base_url p +:+ "/plugin.php?id=dsu_paulsign:sign")
       None "GET" kwargs p
     = (Ret body, p1) ->
     str_in sign_text body = false ->
     exists post d o p2,
       discuz.sign w sign_text form_name kwargs p = (o, p2)
       /\ base.sent p2 = (base.sent p1 ++ [post])%list
       /\ req_data post = Some d
       /\ d !! "todaysay" = Some (VStr "hello")
       /\ forall k, k <> "todaysay" ->
            d !! k
            = VStr <$> discuz._extract_form_params (BeautifulSoup w body) form_name !! k)
  /\ (forall uid iconid success_text,
        discuz.request w
          (base.base_url p +:+ "/home.php?mod=spacecp&ac=poke&op=send&uid=" +:+ uid)
          None "GET" kwargs p
        = (Ret body, p1) ->
        exists post d o p2,
          discuz._send_poke w uid iconid success_text kwargs p = (o, p2)
          /\ base.sent p2 = (base.sent p1 ++ [post])%list
          /\ req_data post = Some d
          /\ d !! "iconid" = Some (VInt iconid)
          /\ d !! "note" = Some (VStr "hello")
          /\ forall k, k <> "iconid" -> k <> "note" ->
               d !! k
               = VStr <$> discuz._extract_form_params (BeautifulSoup w body)
                            "#ct form" !! k).
Proof.
  split.
  - intros sign_text form_name Hreq Hin.
    destruct (sign_post w sign_text form_name kwargs p p1 body Hreq Hin)
      as (post & p2 & (Hsent & _) & _ & _ & Hd & Hsign).
    eexists post, _, _, p2. split; [exact Hsign|]. split; [exact Hsent|].
    split; [exact Hd|]. split; [by rewrite lookup_insert_eq|].
    intros k Hk. by rewrite lookup_insert_ne, lookup_fmap.
  - intros uid iconid success_text Hreq.
    destruct (send_poke_post w uid iconid success_text kwargs p p1 body Hreq)
      as (post & p2 & (Hsent & _) & _ & _ & Hd & Hpoke).
    eexists post, _, _, p2. split; [exact Hpoke|]. split; [exact Hsent|].
    split; [exact Hd|]. split; [by simplify_map_eq|].
    split; [by rewrite lookup_insert_eq|].
    intros k Hk1 Hk2. by rewrite !lookup_insert_ne, lookup_fmap.
Qed.

(** When the page holds no sign form, [sign] does not fail: it posts
    [todaysay=hello] alone to the base URL followed by [/&inajax=1]. *)
Theorem sign_without_form (w : world) (sign_text form_name : string)
    (kwargs : fetch_kwargs) (p p1 : base.provider) (result : string) :
  discuz.request w (base.base_url p +:+ "/plugin.php?id=dsu_paulsign:sign")
    None "GET" kwargs p
  = (Ret result, p1) ->
  str_in sign_text result = false ->
  select_one (BeautifulSoup w result) form_name = None ->
  exists post p2,
    base.sent p2 = (base.sent p1 ++ [post])%list
    /\ req_method post = "POST"
    /\ req_url post = base.base_url p +:+ "/&inajax=1"
    /\ req_data post = Some (<["todaysay" := VStr "hello"]> ∅)
    /\ discuz.sign w sign_text form_name kwargs p
       = (match session_request w (base.sent p1) post with
          | Ret response => text response
          | Raise e => Raise e
          end, p2).
Proof.
  intros Hreq Hin Hnone.
  destruct (sign_post w sign_text form_name kwargs p p1 result Hreq Hin)
    as (post & p2 & (Hsent & _) & Hm & Hu & Hd & Hsign).
  exists post, p2. split; [exact Hsent|]. split; [exact Hm|].
  unfold discuz._extract_form_params in Hd. rewrite Hnone in Hu, Hd.
  split; [exact Hu|]. split; [|exact Hsign].
  by rewrite Hd, fmap_empty.
Qed.

(** ** How much a poke run does *)

Lemma send_poke_count (w : world) (uid : string) (iconid : Z) (success_text : string)
    (kwargs : fetch_kwargs) (p : base.provider) :
  exists rs o p',
    discuz._send_poke w uid iconid success_text kwargs p = (o, p')
    /\ sends p p' rs
    /\ (1 <= length rs <= 2)%nat.
Proof.
  destruct (request_effect w
              (base.base_url p +:+ "/home.php?mod=spacecp&ac=poke&op=send&uid=" +:+ uid)
              None "GET" kwargs p) as (r & p1 & o1 & Hreq & _ & Hs1).
  destruct o1 as [page|e].
  - destruct (send_poke_post w uid iconid success_text kwargs p p1 page Hreq)
      as (post & p2 & Hs2 & _ & _ & _ & Hpoke).
    eexists [r; post], _, p2. split; [exact Hpoke|].
    split; [apply (sends_trans _ _ _ _ _ Hs1 Hs2)|]. simpl. lia.
  - exists [r], (Raise e), p1. split; [|split; [exact Hs1|simpl; lia]].
    unfold discuz._send_poke. unfold bind at 1, get at 1. unfold bind at 1.
    by rewrite Hreq.
Qed.

Lemma gather_pokes_count (w : world) (iconid : Z) (success_text : string)
    (kwargs : fetch_kwargs) (selected_uids : list string) (p : base.provider) :
  exists rs os p',
    gather_return_exceptions
      (map (fun uid => discuz._send_poke w uid iconid success_text kwargs) selected_uids) p
    = (Ret os, p')
    /\ sends p p' rs
    /\ (length selected_uids <= length rs <= 2 * length selected_uids)%nat.
Proof.
  revert p. induction selected_uids as [|uid uids IH]; intros p.
  - exists [], [], p. split; [done|]. split; [apply sends_nil|simpl; lia].
  - destruct (send_poke_count w uid iconid success_text kwargs p)
      as (rs1 & o & p1 & Hrun & Hs1 & Hc1).
    destruct (IH p1) as (rs2 & os & p2 & Hg & Hs2 & Hc2).
    exists (rs1 ++ rs2)%list, (o :: os), p2. simpl. rewrite Hrun, Hg.
    split; [done|]. split; [apply (sends_trans _ _ _ _ _ Hs1 Hs2)|].
    rewrite length_app. lia.
Qed.

(** On a scanned population of more than two UIDs, a poke run for a count
    [n] (10 when the count is missing or 0, none when it is negative)
    draws [n] times, sends between [n] and [2 n] requests after the scan,
    one or two per sampled UID, and returns at most [n] confirmations.  A
    negative count therefore does nothing after the scan. *)
Theorem poke_bounds (w : world) (success_text : string) (poke_num iconid : option Z)
    (kwargs : fetch_kwargs) (p p1 : base.provider) (uid_list : list string) :
  discuz.get_users w kwargs p = (Ret uid_list, p1) ->
  (2 < length uid_list)%nat ->
  exists result rs p3,
    discuz.poke w success_text poke_num iconid kwargs p = (Ret result, p3)
    /\ base.sent p3 = (base.sent p1 ++ rs)%list
    /\ base.draws p3
       = (base.draws p1 + Z.to_nat (int_or poke_num discuz.POKE_DEFAULT_NUM))%nat
    /\ (length result <= Z.to_nat (int_or poke_num discuz.POKE_DEFAULT_NUM))%nat
    /\ (Z.to_nat (int_or poke_num discuz.POKE_DEFAULT_NUM) <= length rs
        <= 2 * Z.to_nat (int_or poke_num discuz.POKE_DEFAULT_NUM))%nat
    /\ (int_or poke_num discuz.POKE_DEFAULT_NUM <= 0 -> result = [] /\ rs = []).
Proof.
  intros Hget Hbig.
  destruct (poke_spec w success_text poke_num iconid kwargs p p1 uid_list Hget Hbig)
    as (sel & rss & os & p3 & Hlen & _ & Hg & Hlos & _ & _ & Hdraws & Hpoke).
  destruct (gather_pokes_count w (int_or iconid discuz.POKE_DEFAULT_ICONID)
              success_text kwargs sel (Nat.iter (length sel) base.add_draw p1))
    as (rs & os' & p3' & Hg' & (Hsent & _) & Hcount).
  rewrite Hg in Hg'. injection Hg' as <- <-.
  destruct (iter_add_draw_sends (length sel) p1) as (I1 & _).
  rewrite I1 in Hsent. rewrite Hlen in *.
  assert (length (discuz.confirmation
                    <$> (filter (fun ur => discuz.succeeded ur.2 = true)
                                (zip sel os)).*1)
          <= Z.to_nat (int_or poke_num discuz.POKE_DEFAULT_NUM))%nat as Hres.
  { rewrite !length_fmap. etrans; [apply length_filter|].
    rewrite length_zip_with. lia. }
  eexists _, rs, p3. split; [exact Hpoke|]. split; [exact Hsent|].
  split; [exact Hdraws|]. split; [exact Hres|]. split; [exact Hcount|].
  intros Hneg. replace (Z.to_nat _) with 0%nat in * by lia.
  split.
  - by apply nil_length_inv; lia.
  - apply nil_length_inv. lia.
Qed.

(** Three members listed and a count of -1: nothing after the scan. *)
Lemma poke_bounds_witness :
  discuz.get_users sample.friendly no_kwargs sample.forum
  = (Ret ["101"; "102"; "103"],
     (discuz.get_users sample.friendly no_kwargs sample.forum).2)
  /\ (2 < length ["101"; "102"; "103"])%nat
  /\ exists p3,
       discuz.poke sample.friendly discuz.success_text_default (Some (-1)) None
         no_kwargs sample.forum
       = (Ret [], p3)
       /\ base.sent p3
          = base.sent (discuz.get_users sample.friendly no_kwargs sample.forum).2.
Proof.
  assert (discuz.get_users sample.friendly no_kwargs sample.forum
          = (Ret ["101"; "102"; "103"],
             (discuz.get_users sample.friendly no_kwargs sample.forum).2))
    as Hget by (vm_compute; reflexivity).
  assert (2 < length ["101"; "102"; "103"])%nat as Hbig by (simpl; lia).
  split; [exact Hget|]. split; [exact Hbig|].
  destruct (poke_bounds sample.friendly discuz.success_text_default (Some (-1)) None
              no_kwargs sample.forum _ _ Hget Hbig)
    as (result & rs & p3 & Hpoke & Hsent & _ & _ & _ & Hneg).
  destruct Hneg as (-> & ->); [vm_compute; discriminate|].
  exists p3. split; [exact Hpoke|]. by rewrite Hsent, app_nil_r.
Defined.

(** ** A lost login *)

Lemma request_stops_at_login (w : world) (url : string)
    (data : option (gmap string pyval)) (method : string) (kwargs : fetch_kwargs) :
  logged_out_site w -> stops_at_login (discuz.request w url data method kwargs).
Proof.
  intros Hout p.
  destruct (fetch_effect w url data method kwargs) as (r & _ & _ & _ & Hf).
  destruct (Hf p) as (p' & Hfetch & Hs & _).
  destruct (Hout (base.sent p) r) as (response & page & Hanswer & Htext & Hmark).
  exists r, p'. split; [|exact Hs].
  unfold discuz.request, bind, await. rewrite Hfetch, Hanswer, Htext, Hmark. done.
Qed.

Lemma stops_at_login_bind {A B} (m : M base.provider A) (k : A -> M base.provider B) :
  stops_at_login m -> stops_at_login (x <- m ;; k x).
Proof.
  intros Hm p. destruct (Hm p) as (r & p' & Hrun & Hs).
  exists r, p'. unfold bind. rewrite Hrun. done.
Qed.

Lemma stops_at_login_get {A} (k : base.provider -> M base.provider A) :
  (forall p, stops_at_login (k p)) -> stops_at_login (p <- get ;; k p).
Proof. intros Hk p. exact (Hk p p). Qed.

Lemma get_users_stops_at_login (w : world) (kwargs : fetch_kwargs) :
  logged_out_site w -> stops_at_login (discuz.get_users w kwargs).
Proof.
  intros Hout. unfold discuz.get_users.
  apply stops_at_login_get. intros p. apply stops_at_login_bind.
  by apply request_stops_at_login.
Qed.

Lemma user_info_stops_at_login (w : world) (kwargs : fetch_kwargs) :
  logged_out_site w -> stops_at_login (discuz.user_info w kwargs).
Proof.
  intros Hout. unfold discuz.user_info.
  apply stops_at_login_get. intros p. apply stops_at_login_bind.
  by apply request_stops_at_login.
Qed.

Lemma jkforum_handler_stops_at_login
    (other_cookie : pyval -> M base.provider base.HandlerResult) (w : world)
    (provider_data : gmap string pyval) (provider_name : string)
    (kw : gmap string pyval) (cookie : string) :
  logged_out_site w ->
  provider_data !! "cookie" = Some (VStr cookie) ->
  stops_at_login (jkforum.handler other_cookie w provider_data provider_name kw).
Proof.
  intros Hout Hcookie p.
  unfold jkforum.handler. rewrite Hcookie. simpl.
  destruct (user_info_stops_at_login w
              {| kw_headers := Some (<["Cookie" := cookie]> ∅);
                 kw_timeout := None; kw_rest := ∅ |} Hout
              (base.set_base_url
                 (str (default VNone (provider_data !! "base_url"))) p))
    as (r & p' & Hrun & Hs).
  exists r, p'. split; [|exact Hs].
  unfold jkforum.tasks. unfold bind at 1, modify at 1. simpl.
  unfold bind at 1. rewrite Hrun. done.
Qed.

(** On a site that answers no request as to a logged-in user, every
    operation of the engine raises the authentication error after exactly
    one request, and so does the Jkforum handler of a record with a string
    cookie: nothing is viewed, signed or poked. *)
Theorem expired_session (w : world) (kwargs : fetch_kwargs) :
  logged_out_site w ->
  (forall url data method, stops_at_login (discuz.request w url data method kwargs))
  /\ stops_at_login (discuz.user_info w kwargs)
  /\ stops_at_login (discuz.get_users w kwargs)
  /\ stops_at_login (discuz.views w kwargs)
  /\ (forall sign_text form_name,
        stops_at_login (discuz.sign w sign_text form_name kwargs))
  /\ (forall success_text poke_num iconid,
        stops_at_login (discuz.poke w success_text poke_num iconid kwargs))
  /\ (forall other_cookie provider_data provider_name kw cookie,
        provider_data !! "cookie" = Some (VStr cookie) ->
        stops_at_login
          (jkforum.handler other_cookie w provider_data provider_name kw)).
Proof.
  intros Hout. repeat split.
  - intros. by apply request_stops_at_login.
  - by apply user_info_stops_at_login.
  - by apply get_users_stops_at_login.
  - unfold discuz.views. apply stops_at_login_bind.
    by apply get_users_stops_at_login.
  - intros. unfold discuz.sign. apply stops_at_login_get. intros p.
    apply stops_at_login_bind. by apply request_stops_at_login.
  - intros. unfold discuz.poke. apply stops_at_login_bind.
    by apply get_users_stops_at_login.
  - intros. by eapply jkforum_handler_stops_at_login.
Qed.

Lemma expired_session_witness :
  logged_out_site sample.logged_out
  /\ exists r p',
       discuz.sign sample.logged_out discuz.sign_text_default
         discuz.form_name_default no_kwargs sample.forum
       = (Raise (AuthenticationError "登录状态已失效，请重新登录"), p')
       /\ base.sent p' = [r].
Proof.
  assert (logged_out_site sample.logged_out) as Hout.
  { intros before r. exists {| text := Ret "please log in" |}, "please log in".
    repeat split; vm_compute; reflexivity. }
  split; [exact Hout|].
  destruct (expired_session sample.logged_out no_kwargs Hout)
    as (_ & _ & _ & _ & Hsign & _).
  destruct (Hsign discuz.sign_text_default discuz.form_name_default sample.forum)
    as (r & p' & Hrun & Hs).
  exists r, p'. split; [exact Hrun|exact Hs].
Defined.

(** ** The Afraid login check *)

(** A record without a truthy user name or password is refused before
    anything is sent or logged.  A record with a user name [u] and a truthy
    password costs one POST of the four login fields to [BASE_URL]; a
    failure of the request or of reading the answer is raised, and an
    answer read is a success exactly when [u] occurs in it. *)
Theorem afraid_handler_cases (w : world) (provider_data : gmap string pyval)
    (provider_name : string) (kwargs : gmap string pyval) (p : base.provider) :
  let username := default VNone (provider_data !! "username") in
  let password := default VNone (provider_data !! "password") in
  (truthy username = false \/ truthy password = false ->
   afraid.handler w provider_data provider_name kwargs p
   = (Ret (base.fail "Missing credentials" (Some "username or password not provided")),
      p))
  /\ (forall u,
        username = VStr u -> u <> "" -> truthy password = true ->
        exists r p',
          sends p p' [r]
          /\ base.lines p'
             = (base.lines p ++ ["Checking login for user: " +:+ u;
                                 "POST " +:+ afraid.BASE_URL])%list
          /\ req_url r = afraid.BASE_URL
          /\ req_method r = "POST"
          /\ req_data r
             = Some (<["username" := VStr u]>
                       (<["password" := password]>
                          (<["submit" := VStr "Login"]>
                             (<["action" := VStr "auth"]> ∅))))
          /\ afraid.handler w provider_data provider_name kwargs p
             = (match session_request w (base.sent p) r with
                | Raise e => Raise e
                | Ret response =>
                    match text response with
                    | Raise e => Raise e
                    | Ret html =>
                        Ret (if str_in u html
                             then base.ok ("Login successful for " +:+ u) None
                             else base.fail ("Login failed for " +:+ u)
                                    (Some "Username not found in response page"))
                    end
                end, p')).
Proof.
  intros username password. split.
  - intros Hmiss. unfold afraid.handler. fold username password.
    destruct Hmiss as [-> | ->]; simpl; [done|].
    by rewrite orb_true_r.
  - intros u Hu Hne Hpw.
    destruct (fetch_effect w afraid.BASE_URL
                (Some (<["username" := VStr u]>
                         (<["password" := password]>
                            (<["submit" := VStr "Login"]>
                               (<["action" := VStr "auth"]> ∅)))))
                "GET" no_kwargs) as (r & Hurl & Hdata & Hmethod & Hf).
    destruct (Hf (base.add_line ("Checking login for user: " +:+ u) p))
      as (p' & Hfetch & Hs1 & Hs2 & Hs3).
    assert (truthy (VStr u) = true) as Htu.
    { destruct u; [done|reflexivity]. }
    exists r, p'. split; [by repeat split|].
    split.
    { revert Hfetch. unfold base.fetch, base.session. run_monad.
      rewrite dict_truthy_insert'. simpl.
      destruct (base._session p); simpl; intros [= _ <-]; simpl;
        by rewrite <- app_assoc. }
    split; [exact Hurl|]. split; [apply Hmethod, dict_truthy_insert|].
    split; [exact Hdata|].
    unfold afraid.handler. fold username password. rewrite Hu, Htu, Hpw. simpl.
    unfold bind at 1, modify at 1. simpl. unfold bind at 1.
    simpl in Hfetch. rewrite Hfetch.
    destruct (session_request w (base.sent p) r) as [response|e]; [|done].
    unfold bind, await. destruct (text response) as [html|e]; [|done].
    by destruct (str_in u html).
Qed.

(** ** The credit summary *)

Lemma join_split_from_cons (skip : nat) (a : ascii) (r : string) :
  discuz.join_split_from skip (String a r)
  = match skip with
    | S k => discuz.join_split_from k r
    | O =>
        match discuz.space_at (String a r) with
        | O => String a (discuz.join_split_from 0 r)
        | S k => discuz.join_split_from k r
        end
    end.
Proof. reflexivity. Qed.

Lemma sub_from_cons (skip : nat) (a : ascii) (r : string) :
  discuz.HTML_CLEANUP_PATTERN_sub_from skip (String a r)
  = match skip with
    | S k => discuz.HTML_CLEANUP_PATTERN_sub_from k r
    | O =>
        match discuz.HTML_CLEANUP_PATTERN_match (String a r) with
        | O => String a (discuz.HTML_CLEANUP_PATTERN_sub_from 0 r)
        | S k => discuz.HTML_CLEANUP_PATTERN_sub_from k r
        end
    end.
Proof. reflexivity. Qed.

Lemma lstrip_space_cons (a : ascii) (r : string) :
  discuz.lstrip_space (String a r)
  = match discuz.space_at (String a r) with
    | 0%nat => String a r
    | 1%nat => discuz.lstrip_space r
    | 2%nat => match r with
               | String _ r2 => discuz.lstrip_space r2
               | EmptyString => EmptyString
               end
    | _ => match r with
           | String _ (String _ r3) => discuz.lstrip_space r3
           | _ => EmptyString
           end
    end.
Proof. reflexivity. Qed.

Lemma rstrip_space_cons (a : ascii) (r : string) :
  discuz.rstrip_space (String a r)
  = if discuz.only_space (String a r) then EmptyString
    else String a (discuz.rstrip_space r).
Proof. reflexivity. Qed.

Lemma space_at_ascii (a : ascii) (r : string) :
  ascii_space a = true -> discuz.space_at (String a r) = 1%nat.
Proof. unfold ascii_space. intros H. unfold discuz.space_at. by rewrite H. Qed.

Lemma join_split_from_no_space (s : string) (skip : nat) (a : ascii) :
  ascii_space a = true -> has_char a (discuz.join_split_from skip s) = false.
Proof.
  intros Ha. revert skip. induction s as [|b r IH]; intros skip; [done|].
  rewrite join_split_from_cons. destruct skip as [|k]; [|apply IH].
  destruct (discuz.space_at (String b r)) as [|k] eqn:E; [|apply IH].
  simpl. rewrite IH, orb_false_r.
  destruct (Ascii.eqb a b) eqn:Hab; [|done].
  apply Ascii.eqb_eq in Hab as <-.
  rewrite (space_at_ascii a r Ha) in E. discriminate.
Qed.

Lemma join_split_from_length (s : string) (skip : nat) :
  (String.length (discuz.join_split_from skip s) <= String.length s)%nat.
Proof.
  revert skip. induction s as [|b r IH]; intros skip; [done|].
  rewrite join_split_from_cons. destruct skip as [|k].
  - destruct (discuz.space_at (String b r)) as [|k].
    + simpl. specialize (IH 0%nat). lia.
    + specialize (IH k). simpl. lia.
  - specialize (IH k). simpl. lia.
Qed.

Lemma sub_from_length (s : string) (skip : nat) :
  (String.length (discuz.HTML_CLEANUP_PATTERN_sub_from skip s) <= String.length s)%nat.
Proof.
  revert skip. induction s as [|b r IH]; intros skip; [done|].
  rewrite sub_from_cons. destruct skip as [|k].
  - destruct (discuz.HTML_CLEANUP_PATTERN_match (String b r)) as [|k].
    + simpl. specialize (IH 0%nat). lia.
    + specialize (IH k). simpl. lia.
  - specialize (IH k). simpl. lia.
Qed.

Lemma rstrip_space_length (s : string) :
  (String.length (discuz.rstrip_space s) <= String.length s)%nat.
Proof.
  induction s as [|b r IH]; [done|]. rewrite rstrip_space_cons.
  destruct (discuz.only_space (String b r)); simpl; lia.
Qed.

Lemma lstrip_space_length (s : string) :
  (String.length (discuz.lstrip_space s) <= String.length s)%nat.
Proof.
  remember (String.length s) as n eqn:Hn.
  assert (String.length s <= n)%nat as Hle by lia. clear Hn.
  revert s Hle. induction n as [|n IH]; intros s Hle.
  - destruct s; [done|]. simpl in Hle. lia.
  - destruct s as [|a r]; [done|]. rewrite lstrip_space_cons.
    simpl in Hle.
    destruct (discuz.space_at (String a r)) as [|[|[|k]]].
    + done.
    + specialize (IH r). simpl. lia.
    + destruct r as [|b r2]; [simpl; lia|]. specialize (IH r2). simpl in *. lia.
    + destruct r as [|b [|c r3]]; [simpl; lia..|].
      specialize (IH r3). simpl in *. lia.
Qed.

(** When the request of [user_info] returns a page, [user_info] returns:
    the empty string when the page has no [.creditl] region, and otherwise
    a string no longer than the text of the region, in which none of the
    ASCII whitespace characters is left. *)
Theorem user_info_result (w : world) (kwargs : fetch_kwargs) (p p1 : base.provider)
    (result : string) :
  discuz.request w (base.base_url p +:+ "/home.php?mod=spacecp&ac=credit&op=base")
    None "GET" kwargs p
  = (Ret result, p1) ->
  exists v,
    discuz.user_info w kwargs p = (Ret v, p1)
    /\ (select_one (BeautifulSoup w result) ".creditl" = None -> v = "")
    /\ (forall creditl,
          select_one (BeautifulSoup w result) ".creditl" = Some creditl ->
          (String.length v <= String.length (get_text creditl))%nat)
    /\ (forall a, ascii_space a = true -> has_char a v = false).
Proof.
  intros Hreq.
  assert (discuz.user_info w kwargs p
          = (Ret match select_one (BeautifulSoup w result) ".creditl" with
                 | Some creditl =>
                     discuz.join_split
                       (discuz.strip_space
                          (discuz.HTML_CLEANUP_PATTERN_sub (get_text creditl)))
                 | None => ""
                 end, p1)) as Hrun.
  { unfold discuz.user_info. unfold bind at 1, get at 1. unfold bind at 1.
    rewrite Hreq. by destruct (select_one _ _). }
  eexists. split; [exact Hrun|].
  destruct (select_one (BeautifulSoup w result) ".creditl") as [creditl|].
  - split; [done|]. split.
    + intros ? [= <-]. unfold discuz.join_split, discuz.strip_space,
        discuz.HTML_CLEANUP_PATTERN_sub.
      etrans; [apply join_split_from_length|].
      etrans; [apply rstrip_space_length|].
      etrans; [apply lstrip_space_length|]. apply sub_from_length.
    + intros a Ha. by apply join_split_from_no_space.
  - split; [done|]. split; [done|]. by intros a Ha.
Qed.

Lemma user_info_result_witness :
  discuz.request sample.credits "https://forum.example/home.php?mod=spacecp&ac=credit&op=base"
    None "GET" no_kwargs sample.forum
  = (Ret sample.logged_in,
     (discuz.request sample.credits
        "https://forum.example/home.php?mod=spacecp&ac=credit&op=base"
        None "GET" no_kwargs sample.forum).2)
  /\ exists v p1,
       discuz.user_info sample.credits no_kwargs sample.forum = (Ret v, p1)
       /\ v = "credits:12"
       /\ has_char " " v = false.
Proof.
  assert (discuz.request sample.credits
            (base.base_url sample.forum +:+ "/home.php?mod=spacecp&ac=credit&op=base")
            None "GET" no_kwargs sample.forum
          = (Ret sample.logged_in,
             (discuz.request sample.credits
                "https://forum.example/home.php?mod=spacecp&ac=credit&op=base"
                None "GET" no_kwargs sample.forum).2))
    as Hreq by (vm_compute; reflexivity).
  split; [exact Hreq|].
  destruct (user_info_result sample.credits no_kwargs sample.forum _ _ Hreq)
    as (v & Hrun & _ & _ & Hspace).
  exists v. eexists. split; [exact Hrun|]. split.
  - assert (discuz.user_info sample.credits no_kwargs sample.forum
            = (Ret "credits:12",
               (discuz.user_info sample.credits no_kwargs sample.forum).2))
      as Hv by (vm_compute; reflexivity).
    rewrite Hv in Hrun. congruence.
  - apply Hspace. reflexivity.
Defined.

(** ** The Jkforum handler *)

Section jkforum_tasks.
Context (w : world) (cookie : string) (R : base.provider -> base.provider -> Prop).
Hypothesis R_refl : forall p, R p p.
Hypothesis R_trans : forall a b c, R a b -> R b c -> R a c.
Hypothesis R_fetch :
  forall url data method,
    always R (base.fetch w url data method
                {| kw_headers := Some (<["Cookie" := cookie]> ∅);
                   kw_timeout := None; kw_rest := ∅ |}).
Hypothesis R_draw : forall p, R p (base.add_draw p).
Hypothesis R_line : forall l p, R p (base.add_line l p).

Lemma always_tasks : always R (jkforum.tasks w cookie).
Proof.
  unfold jkforum.tasks, jkforum.info.
  apply (always_bind R R_trans); [by apply always_user_info|]. intros ?.
  apply (always_bind R R_trans); [by apply always_modify|]. intros ?.
  apply (always_bind R R_trans); [by apply always_views|]. intros ?.
  apply (always_bind R R_trans); [by apply always_modify|]. intros ?.
  apply (always_bind R R_trans); [by apply always_sign|]. intros ?.
  apply (always_bind R R_trans); [by apply always_modify|]. intros ?.
  apply (always_bind R R_trans); [by apply always_poke|]. intros ?.
  apply (always_bind R R_trans); [by apply always_modify|]. intros ?.
  apply (always_ret R R_refl).
Qed.

End jkforum_tasks.

Lemma extended_by_add_line (Q : http_request -> Prop) (l : string) (p : base.provider) :
  extended_by Q p (base.add_line l p).
Proof. exists []. by rewrite app_nil_r. Qed.

Lemma fetch_keeps_base_url (w : world) (kwargs : fetch_kwargs) (url : string)
    (data : option (gmap string pyval)) (method : string) :
  always (fun p p' => base.base_url p' = base.base_url p)
         (base.fetch w url data method kwargs).
Proof.
  intros p. destruct (fetch_effect w url data method kwargs) as (r & _ & _ & _ & Hf).
  destruct (Hf p) as (p' & Hfetch & _ & _ & Hurl). by rewrite Hfetch.
Qed.

Lemma tasks_returns (w : world) (cookie : string) (p p' : base.provider)
    (res : base.HandlerResult) :
  jkforum.tasks w cookie p = (Ret res, p') ->
  res = base.ok "Jkforum tasks completed" None
  /\ exists poked,
       last (base.lines p') = Some ("Poke result: " +:+ jkforum.str_of_lines poked).
Proof.
  unfold jkforum.tasks, jkforum.info, bind, modify.
  destruct (discuz.user_info w _ p) as [[u|e] p1]; [|done]. simpl.
  destruct (discuz.views w _ _) as [[v|e] p2]; [|done]. simpl.
  destruct (discuz.sign w _ _ _ _) as [[s|e] p3]; [|done]. simpl.
  destruct (discuz.poke w _ _ _ _ _) as [[poked|e] p4]; [|done]. simpl.
  intros [= <- <-]. split; [done|]. exists poked. simpl. apply last_snoc.
Qed.

(** The Jkforum handler on a record with a string cookie: the base URL of
    the provider becomes the one of the record, every request sent has the
    cookie of the record as its [Cookie] header, and a result that is
    returned is the success result, after the line of the poke result was
    logged; a step that fails is raised, never turned into a failing
    result. *)
Theorem jkforum_handler_run (other_cookie : pyval -> M base.provider base.HandlerResult)
    (w : world) (provider_data : gmap string pyval) (provider_name : string)
    (kwargs : gmap string pyval) (cookie : string) (p : base.provider) :
  provider_data !! "cookie" = Some (VStr cookie) ->
  let run := jkforum.handler other_cookie w provider_data provider_name kwargs p in
  base.base_url run.2 = str (default VNone (provider_data !! "base_url"))
  /\ extended_by (fun r => req_headers r !! "Cookie" = Some cookie) p run.2
  /\ (forall res,
        run.1 = Ret res ->
        res = base.ok "Jkforum tasks completed" None
        /\ exists poked,
             last (base.lines run.2)
             = Some ("Poke result: " +:+ jkforum.str_of_lines poked)).
Proof.
  intros Hcookie run.
  set (p0 := base.set_base_url (str (default VNone (provider_data !! "base_url"))) p).
  assert (run = jkforum.tasks w cookie p0) as Hrun.
  { unfold run, jkforum.handler. rewrite Hcookie. reflexivity. }
  rewrite Hrun. clear run Hrun.
  set (kw := {| kw_headers := Some (<["Cookie" := cookie]> ∅);
                kw_timeout := None; kw_rest := ∅ |}).
  split; [|split].
  - assert (always (fun p p' => base.base_url p' = base.base_url p)
                   (jkforum.tasks w cookie)) as Hurl.
    { apply always_tasks; try done.
      - intros a b c Hab Hbc. congruence.
      - intros. apply fetch_keeps_base_url. }
    rewrite (Hurl p0). reflexivity.
  - assert (always (extended_by (carries kw)) (jkforum.tasks w cookie)) as Hsent.
    { apply always_tasks.
      - apply extended_by_refl.
      - apply extended_by_trans.
      - apply carries_fetch.
      - apply extended_by_add_draw.
      - intros. apply extended_by_add_line. }
    destruct (Hsent p0) as (rs & Hrs & Hall). exists rs. split; [exact Hrs|].
    eapply Forall_impl; [exact Hall|]. intros r (Hheaders & _).
    apply Hheaders. simpl. apply lookup_insert_eq.
  - intros res Hres.
    apply (tasks_returns w cookie p0 (jkforum.tasks w cookie p0).2).
    rewrite <- Hres. by destruct (jkforum.tasks w cookie p0).
Qed.

Lemma jkforum_handler_run_witness :
  (<["base_url" := VStr "https://forum.example"]>
     (<["cookie" := VStr "sid=1"]> (∅ : gmap string pyval))) !! "cookie"
  = Some (VStr "sid=1")
  /\ exists rs,
       base.sent
         (jkforum.handler (fun _ => raise (TypeError "cookie")) sample.friendly
            (<["base_url" := VStr "https://forum.example"]>
               (<["cookie" := VStr "sid=1"]> ∅)) "jk" ∅ base.__init__).2
       = rs
       /\ Forall (fun r => req_headers r !! "Cookie" = Some "sid=1") rs.
Proof.
  assert ((<["base_url" := VStr "https://forum.example"]>
             (<["cookie" := VStr "sid=1"]> (∅ : gmap string pyval))) !! "cookie"
          = Some (VStr "sid=1")) as Hcookie by (vm_compute; reflexivity).
  split; [exact Hcookie|].
  destruct (jkforum_handler_run (fun _ => raise (TypeError "cookie")) sample.friendly
              _ "jk" ∅ "sid=1" base.__init__ Hcookie)
    as (_ & (rs & Hrs & Hall) & _).
  exists rs. split; [exact Hrs|exact Hall].
Defined.

(** ** The HTTP session, closed *)

(** Closing the HTTP session: without a session nothing happens; with a
    session whose [close()] returns, the session is dropped, a second
    [close_session] does nothing more, and the next [fetch] opens a new
    session, numbered after the ones opened before; with a session whose
    [close()] raises, the exception is raised and the session is still
    held.  No request is sent in any case. *)
Theorem close_session_cases (w : world) (p : base.provider) :
  (base._session p = None -> base.close_session w p = (Ret tt, p))
  /\ (forall c, base._session p = Some c ->
        session_close w = Ret tt ->
        exists p1,
          base.close_session w p = (Ret tt, p1)
          /\ base._session p1 = None
          /\ base.closed p1 = (base.closed p ++ [c])%list
          /\ base.sent p1 = base.sent p
          /\ base.close_session w p1 = (Ret tt, p1)
          /\ forall url data method kwargs,
               base._session (base.fetch w url data method kwargs p1).2
               = Some {| base.session_no := base.opened p |}
               /\ base.opened (base.fetch w url data method kwargs p1).2
                  = S (base.opened p))
  /\ (forall c e, base._session p = Some c ->
        session_close w = Raise e ->
        exists p1,
          base.close_session w p = (Raise e, p1)
          /\ base._session p1 = Some c
          /\ base.closed p1 = (base.closed p ++ [c])%list
          /\ base.sent p1 = base.sent p).
Proof.
  unfold base.close_session. split; [|split].
  - intros Hs. run_monad. by rewrite Hs.
  - intros c Hs Hclose. run_monad. rewrite Hs. simpl. rewrite Hclose. simpl.
    eexists. split; [reflexivity|]. simpl. do 4 (split; [done|]).
    intros url data method kwargs.
    unfold base.fetch, base.session, base.session_request_on. run_monad. done.
  - intros c e Hs Hclose. run_monad. rewrite Hs. simpl. rewrite Hclose. simpl.
    eexists. split; [reflexivity|]. done.
Qed.

(** ** Failures of a handler, as the runner reports them *)



(** * Concrete runs of the further properties *)

Lemma close_stops_at_store_failure_witness :
  db._client (db.handle sample.connected)
  = Some {| db.client_url := "mongodb://localhost" |}
  /\ motor_close sample.failing_store_close = Raise (PyMongoError "close failed")
  /\ exists s',
       base.close sample.failing_store_close
         {| base.self := sample.forum; base.db := sample.connected; base.log := [] |}
       = (Raise (PyMongoError "close failed"), s')
       /\ base.self s' = sample.forum.
Proof.
  split; [reflexivity|]. split; [reflexivity|].
  destruct (close_stops_at_store_failure sample.failing_store_close
              {| base.self := sample.forum; base.db := sample.connected; base.log := [] |}
              {| db.client_url := "mongodb://localhost" |}
              (PyMongoError "close failed") eq_refl eq_refl)
    as (s' & Hclose & Hself & _).
  exists s'. split; [exact Hclose|exact Hself].
Defined.

Lemma run_setup_failure_witness :
  motor_close sample.failing_query = Ret tt
  /\ session_close sample.failing_query = Ret tt
  /\ (base.get_provider (H := afraid.Afraid) sample.failing_query
        (run_provider_type (H := afraid.Afraid) ∅) (run_name ∅)
        (base.connect sample.failing_query sample.started).2).1
     = Raise (PyMongoError "OperationFailure")
  /\ exists s',
       base.run (H := afraid.Afraid) sample.failing_query ∅ sample.started = (Ret tt, s')
       /\ base.log s' = [base.Error_in_run (PyMongoError "OperationFailure")].
Proof.
  assert (base.connect sample.failing_query sample.started
          = (Ret tt, (base.connect sample.failing_query sample.started).2))
    as Hconnect by (vm_compute; reflexivity).
  assert ((base.get_provider (H := afraid.Afraid) sample.failing_query
             (run_provider_type (H := afraid.Afraid) ∅) (run_name ∅)
             (base.connect sample.failing_query sample.started).2).1
          = Raise (PyMongoError "OperationFailure"))
    as Hquery by (vm_compute; reflexivity).
  split; [reflexivity|]. split; [reflexivity|]. split; [exact Hquery|].
  destruct (run_setup_failure (P := afraid.Afraid) sample.failing_query ∅ sample.started
              (PyMongoError "OperationFailure") eq_refl eq_refl
              (or_intror (ex_intro _ _ (conj Hconnect Hquery))))
    as (s' & Hrun & Hlog & _).
  exists s'. split; [exact Hrun|exact Hlog].
Defined.

Lemma run_empty_batch_witness :
  motor_close sample.friendly = Ret tt
  /\ session_close sample.friendly = Ret tt
  /\ (base.connect sample.friendly sample.started).1 = Ret tt
  /\ (base.get_provider (H := afraid.Afraid) sample.friendly
        (run_provider_type (H := afraid.Afraid) ∅) (run_name ∅)
        (base.connect sample.friendly sample.started).2).1
     = Ret []
  /\ exists s',
       base.run (H := afraid.Afraid) sample.friendly ∅ sample.started = (Ret tt, s')
       /\ base.log s' = [base.Warning_no_providers (VStr "Afraid")]
       /\ released s'.
Proof.
  assert (base.connect sample.friendly sample.started
          = (Ret tt, (base.connect sample.friendly sample.started).2))
    as Hconnect by (vm_compute; reflexivity).
  assert (base.get_provider (H := afraid.Afraid) sample.friendly
            (run_provider_type (H := afraid.Afraid) ∅) (run_name ∅)
            (base.connect sample.friendly sample.started).2
          = (Ret [],
             (base.get_provider (H := afraid.Afraid) sample.friendly
                (run_provider_type (H := afraid.Afraid) ∅) (run_name ∅)
                (base.connect sample.friendly sample.started).2).2))
    as Hquery by (vm_compute; reflexivity).
  split; [reflexivity|]. split; [reflexivity|].
  split; [by rewrite Hconnect|]. split; [by rewrite Hquery|].
  destruct (run_empty_batch (P := afraid.Afraid) sample.friendly ∅ sample.started _ _
              eq_refl eq_refl Hconnect Hquery)
    as (s' & Hrun & Hlog & _ & _ & Hreleased).
  exists s'. split; [exact Hrun|]. split; [exact Hlog|exact Hreleased].
Defined.

Lemma run_query_witness :
  (base.connect sample.friendly sample.started).1 = Ret tt
  /\ exists query,
       db.Find_sorted query
       ∈ db.driver_calls
           (base.db (base.run_try (H := afraid.Afraid) sample.friendly
                       (<["name" := VStr "acct1"]> ∅) sample.started).2)
       /\ query !! "provider_type" = Some (VStr "Afraid")
       /\ query !! "name" = Some (VStr "acct1").
Proof.
  assert (base.connect sample.friendly sample.started
          = (Ret tt, (base.connect sample.friendly sample.started).2))
    as Hconnect by (vm_compute; reflexivity).
  split; [by rewrite Hconnect|].
  destruct (run_query (P := afraid.Afraid) sample.friendly
              (<["name" := VStr "acct1"]> ∅) sample.started _ Hconnect)
    as (query & Hcalls & _ & Htype & Hname).
  exists query. split; [|split; [exact Htype|exact Hname]].
  rewrite Hcalls. apply elem_of_app. right. apply list_elem_of_singleton. reflexivity.
Defined.

Lemma cli_query_witness :
  (base.connect sample.friendly
     {| base.self := base.self sample.started; base.db := base.db sample.started;
        base.log := (base.log sample.started ++ [base.Info_starting "afraid"])%list |}).1
  = Ret tt
  /\ exists query s',
       cli.reached (cli.main sample.friendly (fun _ => Ret afraid.Afraid) "afraid"
                      (Some "acct1") sample.started)
       = Some s'
       /\ db.Find_sorted query ∈ db.driver_calls (base.db s')
       /\ query !! "provider_type" = Some (VStr "afraid")
       /\ query !! "name" = Some (VStr "acct1").
Proof.
  assert (base.connect sample.friendly
            {| base.self := base.self sample.started; base.db := base.db sample.started;
               base.log := (base.log sample.started
                            ++ [base.Info_starting "afraid"])%list |}
          = (Ret tt,
             (base.connect sample.friendly
                {| base.self := base.self sample.started;
                   base.db := base.db sample.started;
                   base.log := (base.log sample.started
                                ++ [base.Info_starting "afraid"])%list |}).2))
    as Hconnect by (vm_compute; reflexivity).
  split; [by rewrite Hconnect|].
  assert ("afraid" <> "") as Hname by discriminate.
  destruct (cli_query sample.friendly (fun _ => Ret afraid.Afraid) "afraid"
              (Some "acct1") sample.started _ afraid.Afraid eq_refl Hname Hconnect)
    as (query & s' & Hreached & Hcall & _ & Htype & Hq).
  exists query, s'. split; [exact Hreached|]. split; [exact Hcall|].
  split; [exact Htype|exact Hq].
Defined.

Lemma get_users_numeric_witness :
  (discuz.get_users sample.friendly no_kwargs sample.forum).1
  = Ret ["101"; "102"; "103"]
  /\ Forall (fun uid => uid <> "" /\ numeric uid = true) ["101"; "102"; "103"].
Proof.
  assert (discuz.get_users sample.friendly no_kwargs sample.forum
          = (Ret ["101"; "102"; "103"],
             (discuz.get_users sample.friendly no_kwargs sample.forum).2))
    as Hget by (vm_compute; reflexivity).
  split; [by rewrite Hget|].
  exact (proj1 (get_users_numeric sample.friendly no_kwargs sample.forum _ _ Hget)).
Defined.

Lemma sign_without_form_witness :
  (discuz.request sample.friendly
     (base.base_url sample.forum +:+ "/plugin.php?id=dsu_paulsign:sign")
     None "GET" no_kwargs sample.forum).1
  = Ret sample.logged_in
  /\ str_in discuz.sign_text_default sample.logged_in = false
  /\ select_one (BeautifulSoup sample.friendly sample.logged_in) "#missing" = None
  /\ exists post p2,
       (discuz.sign sample.friendly discuz.sign_text_default "#missing" no_kwargs
          sample.forum).2
       = p2
       /\ last (base.sent p2) = Some post
       /\ req_method post = "POST"
       /\ req_url post = "https://forum.example/&inajax=1"
       /\ req_data post = Some (<["todaysay" := VStr "hello"]> ∅).
Proof.
  assert (discuz.request sample.friendly
            (base.base_url sample.forum +:+ "/plugin.php?id=dsu_paulsign:sign")
            None "GET" no_kwargs sample.forum
          = (Ret sample.logged_in,
             (discuz.request sample.friendly
                (base.base_url sample.forum +:+ "/plugin.php?id=dsu_paulsign:sign")
                None "GET" no_kwargs sample.forum).2))
    as Hreq by (vm_compute; reflexivity).
  assert (str_in discuz.sign_text_default sample.logged_in = false)
    as Htext by (vm_compute; reflexivity).
  assert (select_one (BeautifulSoup sample.friendly sample.logged_in) "#missing" = None)
    as Hform by (vm_compute; reflexivity).
  split; [by rewrite Hreq|]. split; [exact Htext|]. split; [exact Hform|].
  destruct (sign_without_form sample.friendly discuz.sign_text_default "#missing"
              no_kwargs sample.forum _ sample.logged_in Hreq Htext Hform)
    as (post & p2 & Hsent & Hmethod & Hurl & Hdata & Hsign).
  exists post, p2. split; [by rewrite Hsign|].
  split; [rewrite Hsent; apply last_snoc|].
  split; [exact Hmethod|]. split; [exact Hurl|exact Hdata].
Defined.



Lemma db_close_cases_witness :
  exists s1,
    db.close sample.friendly sample.connected = (Ret tt, s1)
    /\ db._client (db.handle s1) = None
    /\ db.collection (db.handle s1) = None
    /\ db.close sample.friendly s1 = (Ret tt, s1).
Proof.
  destruct (proj1 (proj2 (db_close_cases sample.friendly sample.connected))
              {| db.client_url := "mongodb://localhost" |} eq_refl eq_refl)
    as (s1 & Hclose & Hclient & Hcoll & _ & _ & Hagain).
  exists s1. split; [exact Hclose|]. split; [exact Hclient|].
  split; [exact Hcoll|exact Hagain].
Defined.

Lemma db_get_provider_query_witness :
  exists query : gmap string pyval,
    query !! "status" = Some (VInt 1)
    /\ query !! "provider_type" = Some (VStr "Afraid")
    /\ query !! "name" = None
    /\ (db.get_provider sample.friendly (VStr "Afraid") VNone sample.connected).1
       = Ret [].
Proof.
  destruct (proj2 (db_get_provider_query sample.friendly (VStr "Afraid") VNone
                     sample.connected) _ eq_refl)
    as (query & Hstatus & Htype & Hname & _ & Hrun).
  exists query. split; [exact Hstatus|]. split; [exact Htype|].
  split; [exact Hname|]. by rewrite Hrun.
Defined.


Lemma uid_pattern_search_spec_witness :
  discuz.UID_PATTERN_search "home.php?mod=space&uid=102&do=profile" = Some "102"
  /\ exists pre sep post,
       "home.php?mod=space&uid=102&do=profile"
       = pre +:+ "uid" +:+ String sep ("102" +:+ post)
       /\ (sep = "="%char \/ sep = "-"%char).
Proof.
  assert (discuz.UID_PATTERN_search "home.php?mod=space&uid=102&do=profile"
          = Some "102") as Hsearch by (vm_compute; reflexivity).
  split; [exact Hsearch|].
  destruct (proj1 (uid_pattern_search_spec "home.php?mod=space&uid=102&do=profile")
              "102" Hsearch) as (pre & sep & post & Hs & Hsep & _).
  exists pre, sep, post. split; [exact Hs|exact Hsep].
Defined.

Lemma posts_echo_form_fields_witness :
  exists post (d : gmap string pyval),
    last (base.sent (discuz.sign sample.friendly discuz.sign_text_default
                       discuz.form_name_default no_kwargs sample.forum).2)
    = Some post
    /\ req_data post = Some d
    /\ d !! "todaysay" = Some (VStr "hello")
    /\ d !! "formhash" = Some (VStr "abc")
    /\ d !! "qdxq" = Some (VStr "").
Proof.
  assert (discuz.request sample.friendly
            (base.base_url sample.forum +:+ "/plugin.php?id=dsu_paulsign:sign")
            None "GET" no_kwargs sample.forum
          = (Ret sample.logged_in,
             (discuz.request sample.friendly
                (base.base_url sample.forum +:+ "/plugin.php?id=dsu_paulsign:sign")
                None "GET" no_kwargs sample.forum).2))
    as Hreq by (vm_compute; reflexivity).
  assert (str_in discuz.sign_text_default sample.logged_in = false)
    as Htext by (vm_compute; reflexivity).
  destruct (proj1 (posts_echo_form_fields sample.friendly no_kwargs sample.forum _
                     sample.logged_in)
              discuz.sign_text_default discuz.form_name_default Hreq Htext)
    as (post & d & o & p2 & Hsign & Hsent & Hdata & Hsay & Hecho).
  exists post, d. split; [by rewrite Hsign; simpl; rewrite Hsent; apply last_snoc|].
  split; [exact Hdata|]. split; [exact Hsay|]. split.
  - rewrite (Hecho "formhash") by discriminate. vm_compute; reflexivity.
  - rewrite (Hecho "qdxq") by discriminate. vm_compute; reflexivity.
Defined.

Lemma afraid_handler_cases_witness :
  exists r p',
    afraid.handler sample.failing_release
      (<["username" := VStr "acct1"]> (<["password" := VStr "x"]> ∅)) "acct1" ∅
      base.__init__
    = (Ret (base.ok "Login successful for acct1" None), p')
    /\ base.sent p' = [r]
    /\ req_method r = "POST"
    /\ req_url r = afraid.BASE_URL.
Proof.
  assert ("acct1" <> "") as Hne by discriminate.
  assert (default VNone
            ((<["username" := VStr "acct1"]> (<["password" := VStr "x"]> ∅)
              : gmap string pyval) !! "username")
          = VStr "acct1") as Hu by (vm_compute; reflexivity).
  assert (truthy (default VNone
                    ((<["username" := VStr "acct1"]> (<["password" := VStr "x"]> ∅)
                      : gmap string pyval) !! "password"))
          = true) as Hpw by (vm_compute; reflexivity).
  destruct (proj2 (afraid_handler_cases sample.failing_release
                     (<["username" := VStr "acct1"]> (<["password" := VStr "x"]> ∅))
                     "acct1" ∅ base.__init__)
              "acct1" Hu Hne Hpw)
    as (r & p' & (Hsent & _) & _ & Hurl & Hmethod & _ & Hrun).
  exists r, p'. split; [exact Hrun|]. split; [exact Hsent|].
  split; [exact Hmethod|exact Hurl].
Defined.

Lemma close_session_cases_witness :
  exists p1,
    base.close_session sample.friendly
      (base.fetch sample.friendly "https://forum.example/" None "GET" no_kwargs
         sample.forum).2
    = (Ret tt, p1)
    /\ base._session p1 = None
    /\ base.closed p1 = [{| base.session_no := 0 |}]
    /\ base._session
         (base.fetch sample.friendly "https://forum.example/" None "GET" no_kwargs p1).2
       = Some {| base.session_no := 1 |}.
Proof.
  destruct (proj1 (proj2 (close_session_cases sample.friendly
                            (base.fetch sample.friendly "https://forum.example/" None
                               "GET" no_kwargs sample.forum).2))
              {| base.session_no := 0 |} eq_refl eq_refl)
    as (p1 & Hclose & Hsession & Hclosed & _ & _ & Hnext).
  exists p1. split; [exact Hclose|]. split; [exact Hsession|].
  split; [exact Hclosed|].
  exact (proj1 (Hnext "https://forum.example/" None "GET" no_kwargs)).
Defined.
